(** * hwopus: the HLE hardware Opus decoder service

    A shallow embedding of [src/core/hle/service/audio/hwopus.cpp]: the
    decoder factory ([HwOpus::GetWorkBufferSize], [HwOpus::OpenOpusDecoder])
    and the decoder session ([IHardwareOpusDecoderManager]) with its framing,
    capacity check, codec invocation and timing.

    The Opus library is external; it is an interface ([Codec]) whose
    operations are arbitrary functions returning C [int]s.  Every call the
    service makes into it is recorded as an [Event], so that "the codec is
    never consulted" is a statement about the recorded events. *)

From Stdlib Require Import String ZArith List Lia Bool.
From Stdlib.Strings Require Import Byte.
Import ListNotations.
Local Open Scope Z_scope.

(** ** Fixed-width integers

    Values are [Z]; a conversion to a C++ type is the wrap-around written
    out.  [std::size_t] is 64 bits wide on every target of the emulator. *)

Definition to_u32 (x : Z) : Z := x mod 2 ^ 32.
Definition to_u64 (x : Z) : Z := x mod 2 ^ 64.
Definition to_size_t (x : Z) : Z := to_u64 x.
(** [static_cast<int>] and [static_cast<opus_int32>]. *)
Definition to_int (x : Z) : Z := (x + 2 ^ 31) mod 2 ^ 32 - 2 ^ 31.

Definition is_int (x : Z) : Prop := - 2 ^ 31 <= x < 2 ^ 31.
Definition is_u32 (x : Z) : Prop := 0 <= x < 2 ^ 32.
Definition is_size_t (x : Z) : Prop := 0 <= x < 2 ^ 64.

Definition INT_MIN : Z := - 2 ^ 31.
Definition INT_MAX : Z := 2 ^ 31 - 1.

Definition sizeof_opus_int16 : Z := 2.
Definition sizeof_s16 : Z := 2.
Definition sizeof_u16 : Z := 2.

(** ** The external codec (opus.h)

    [opus_decoder_init] fills the scratch block and returns a status;
    [opus_packet_get_nb_samples data len Fs] is the header-only probe;
    [opus_decode st data len frame_size decode_fec] returns its status, the
    samples it stored from [pcm[0]] on, and the decoder state it leaves. *)

Class Codec : Type := {
  OpusDecoder : Type;
  opus_decoder_get_size : Z -> Z;
  opus_decoder_init : Z -> Z -> Z * OpusDecoder;
  opus_packet_get_nb_samples : list byte -> Z -> Z -> Z;
  opus_decode : OpusDecoder -> list byte -> Z -> Z -> Z -> Z * list Z * OpusDecoder;
  opus_decoder_get_size_int : forall channels, is_int (opus_decoder_get_size channels);
  opus_decoder_init_int : forall Fs channels, is_int (fst (opus_decoder_init Fs channels));
  opus_packet_get_nb_samples_int :
    forall data len Fs, is_int (opus_packet_get_nb_samples data len Fs);
  opus_decode_int :
    forall st data len frame_size fec,
      is_int (fst (fst (opus_decode st data len frame_size fec)))
}.

(** ** What a call leaves behind: codec calls and error log lines *)

Inductive ErrorLog : Type :=
| InputSmallerThanHeader (header_sz input_sz : Z)
| InputDoesNotFit (data_sz input_sz : Z)
| DecodedDataDoesNotFit (decoded_sz raw_output_sz : Z)
| IncorrectSampleCount (output_sample_count frame_size data_sz_from_hdr : Z)
| FailedToDecode
| FailedToInit (err : Z).

Inductive Event : Type :=
| CallGetNbSamples (frame : list byte) (len Fs : Z)
| CallDecode (frame : list byte) (len frame_size decode_fec : Z)
| CallDecoderInit (Fs channels : Z)
| LogError (line : ErrorLog).

(** The error taxonomy of the service; every [LOG_ERROR] of the decode path
    belongs to one kind. *)
Inductive ErrorKind : Type := FramingError | CapacityError | CodecError.

Definition error_kind (line : ErrorLog) : option ErrorKind :=
  match line with
  | InputSmallerThanHeader _ _ => Some FramingError
  | InputDoesNotFit _ _ => Some FramingError
  | DecodedDataDoesNotFit _ _ => Some CapacityError
  | IncorrectSampleCount _ _ _ => Some CodecError
  | FailedToDecode => None
  | FailedToInit _ => None
  end.

Fixpoint logged_kinds (evs : list Event) : list ErrorKind :=
  match evs with
  | [] => []
  | LogError line :: rest =>
      match error_kind line with
      | Some k => k :: logged_kinds rest
      | None => logged_kinds rest
      end
  | _ :: rest => logged_kinds rest
  end.

Definition is_decode_call (e : Event) : bool :=
  match e with CallDecode _ _ _ _ => true | _ => false end.

Definition is_codec_call (e : Event) : bool :=
  match e with LogError _ => false | _ => true end.

Definition is_probe_call (e : Event) : bool :=
  match e with CallGetNbSamples _ _ _ => true | _ => false end.

Definition decode_calls (evs : list Event) : list Event := filter is_decode_call evs.
Definition probe_calls (evs : list Event) : list Event := filter is_probe_call evs.
Definition codec_calls (evs : list Event) : list Event := filter is_codec_call evs.

(** ** Faults that end the process instead of returning *)

Inductive Fault : Type :=
| AssertionFailed (msg : string)
| DivisionByZero.

Inductive Outcome (A : Type) : Type :=
| Returned (a : A)
| Crashed (why : Fault).
Arguments Returned {A} a.
Arguments Crashed {A} why.

(** Modelled from the spec: [ASSERT_MSG] (common/assert.h) is not among the
    sources.  The specification calls a violated precondition a fatal
    contract error, "abort/assert": the handler does not return. *)
Definition ASSERT_MSG {A : Type} (cond : bool) (msg : string) (k : Outcome A) : Outcome A :=
  if cond then k else Crashed (AssertionFailed msg).

(** ** The packet header

    [struct OpusHeader { u32_be sz; INSERT_PADDING_WORDS(1); }], 8 bytes. *)

Definition sizeof_OpusHeader : Z := 8.

Record OpusHeader : Type := { sz : Z; padding : list byte }.

Definition byte_val (b : byte) : Z := Z.of_N (Byte.to_N b).

(** The value of a [u32_be] held in four bytes of memory. *)
Definition u32_be (b0 b1 b2 b3 : byte) : Z :=
  byte_val b0 * 2 ^ 24 + byte_val b1 * 2 ^ 16 + byte_val b2 * 2 ^ 8 + byte_val b3.

(** [std::memcpy(&hdr, input.data(), sizeof(OpusHeader))]; called only once
    the input is known to hold eight bytes. *)
Definition read_OpusHeader (input : list byte) : OpusHeader :=
  {| sz := u32_be (nth 0 input x00) (nth 1 input x00) (nth 2 input x00) (nth 3 input x00);
     padding := firstn 4 (skipn 4 input) |}.

(** ** Wall-clock time

    [std::chrono::high_resolution_clock::now()] is an input of the model: a
    [Clock] gives the reading, in ticks, at the points of one call the
    timing claims speak about.  The duration is truncated to whole
    milliseconds by [duration_cast]. *)

Record Clock : Type := {
  now_at_entry : Z;
  now_at_decode_call : Z;
  now_at_decode_return : Z
}.

Definition ticks_per_ms : Z := 1000000.

Definition duration_cast_ms (ticks : Z) : Z := Z.quot ticks ticks_per_ms.

(** ** The decoder session *)

Section Service.
Context {codec : Codec}.

Record IHardwareOpusDecoderManager : Type := {
  decoder : OpusDecoder;
  sample_rate : Z;
  channel_count : Z
}.

(** What [Decoder_DecodeInterleaved] returns and leaves in its reference
    parameters, in the decoder and in the log. *)
Record DecodeOut : Type := {
  d_ok : bool;
  d_consumed : Z;
  d_sample_count : Z;
  d_output : list Z;
  d_performance : option Z;
  d_decoder : OpusDecoder;
  d_events : list Event
}.

(** The codec stores its samples from [output.data()] on; the vector keeps
    its size. *)
Definition store_pcm (pcm : list Z) (output : list Z) : list Z :=
  firstn (length output) (pcm ++ skipn (length pcm) output).

(** [decoded_sample_count * channel_count * sizeof(u16)]: an [int] times a
    [u32] is computed in [unsigned int]; that times a [std::size_t] in
    [std::size_t]. *)
Definition decoded_sz (decoded_sample_count channel_count : Z) : Z :=
  to_size_t (to_u32 (to_u32 decoded_sample_count * channel_count) * sizeof_u16).

Definition Decoder_DecodeInterleaved (self : IHardwareOpusDecoderManager) (clk : Clock)
    (consumed sample_count : Z) (input : list byte) (output : list Z)
    (performance_time : option Z) : Outcome DecodeOut :=
  let failed evs :=
    Returned {| d_ok := false; d_consumed := consumed; d_sample_count := sample_count;
                d_output := output; d_performance := performance_time;
                d_decoder := decoder self; d_events := evs |} in
  let start_time := now_at_entry clk in
  let input_size := Z.of_nat (length input) in
  let raw_output_sz := to_size_t (Z.of_nat (length output) * sizeof_opus_int16) in
  if sizeof_OpusHeader >? input_size then
    failed [LogError (InputSmallerThanHeader sizeof_OpusHeader input_size)]
  else
    let hdr := read_OpusHeader input in
    if to_size_t (sizeof_OpusHeader + to_u32 (sz hdr)) >? input_size then
      failed [LogError (InputDoesNotFit (to_size_t (sizeof_OpusHeader + to_u32 (sz hdr)))
                                         input_size)]
    else
      let frame := skipn (Z.to_nat sizeof_OpusHeader) input in
      let probe_len := to_int (to_size_t (input_size - sizeof_OpusHeader)) in
      let probe_Fs := to_int (sample_rate self) in
      let decoded_sample_count := opus_packet_get_nb_samples frame probe_len probe_Fs in
      if decoded_sz decoded_sample_count (channel_count self) >? raw_output_sz then
        failed [CallGetNbSamples frame probe_len probe_Fs;
                LogError (DecodedDataDoesNotFit
                            (decoded_sz decoded_sample_count (channel_count self))
                            raw_output_sz)]
      else if channel_count self =? 0 then
        Crashed DivisionByZero
      else
        let frame_size := to_int (raw_output_sz / sizeof_s16 / channel_count self) in
        let decode_len := to_int (sz hdr) in
        let '(out_sample_count, pcm, decoder') :=
          opus_decode (decoder self) frame decode_len frame_size 0 in
        let output' := store_pcm pcm output in
        if out_sample_count <? 0 then
          Returned {| d_ok := false; d_consumed := consumed;
                      d_sample_count := sample_count;
                      d_output := output'; d_performance := performance_time;
                      d_decoder := decoder';
                      d_events :=
                        [CallGetNbSamples frame probe_len probe_Fs;
                         CallDecode frame decode_len frame_size 0;
                         LogError (IncorrectSampleCount out_sample_count frame_size
                                                        (to_u32 (sz hdr)))] |}
        else
          let end_time := now_at_decode_return clk - start_time in
          Returned {| d_ok := true;
                      d_consumed := to_u32 (to_size_t (sizeof_OpusHeader + sz hdr));
                      d_sample_count := to_u32 out_sample_count;
                      d_output := output';
                      d_performance :=
                        match performance_time with
                        | Some _ => Some (to_u64 (duration_cast_ms end_time))
                        | None => None
                        end;
                      d_decoder := decoder';
                      d_events :=
                        [CallGetNbSamples frame probe_len probe_Fs;
                         CallDecode frame decode_len frame_size 0] |}.

(** ** The request handlers *)

Record HLERequestContext : Type := {
  ReadBuffer : list byte;
  GetWriteBufferSize : Z
}.

Definition RESULT_SUCCESS : Z := 0.
Definition ResultCode_minus_1 : Z := to_u32 (-1).

(** What the handler answers: the result code, the words pushed after it,
    and the samples handed to [ctx.WriteBuffer] (if it is called). *)
Record Response : Type := {
  result : Z;
  pushed : list Z;
  WriteBuffer : option (list Z)
}.

Record HandlerOut : Type := {
  h_response : Response;
  h_session : IHardwareOpusDecoderManager;
  h_events : list Event
}.

Definition with_decoder (self : IHardwareOpusDecoderManager) (d : OpusDecoder)
  : IHardwareOpusDecoderManager :=
  {| decoder := d; sample_rate := sample_rate self; channel_count := channel_count self |}.

(** [std::vector<opus_int16> samples(ctx.GetWriteBufferSize() / sizeof(opus_int16))]:
    value-initialised, so all zero. *)
Definition new_samples (ctx : HLERequestContext) : list Z :=
  repeat 0 (Z.to_nat (GetWriteBufferSize ctx / sizeof_opus_int16)).

Definition DecodeInterleaved (self : IHardwareOpusDecoderManager) (clk : Clock)
    (ctx : HLERequestContext) : Outcome HandlerOut :=
  let consumed := 0 in
  let sample_count := 0 in
  let samples := new_samples ctx in
  match Decoder_DecodeInterleaved self clk consumed sample_count (ReadBuffer ctx) samples None with
  | Crashed why => Crashed why
  | Returned r =>
      if negb (d_ok r) then
        Returned {| h_response := {| result := ResultCode_minus_1; pushed := [];
                                     WriteBuffer := None |};
                    h_session := with_decoder self (d_decoder r);
                    h_events := d_events r ++ [LogError FailedToDecode] |}
      else
        Returned {| h_response := {| result := RESULT_SUCCESS;
                                     pushed := [d_consumed r; d_sample_count r];
                                     WriteBuffer := Some (d_output r) |};
                    h_session := with_decoder self (d_decoder r);
                    h_events := d_events r |}
  end.

Definition DecodeInterleavedWithPerformance (self : IHardwareOpusDecoderManager) (clk : Clock)
    (ctx : HLERequestContext) : Outcome HandlerOut :=
  let consumed := 0 in
  let sample_count := 0 in
  let performance := 0 in
  let samples := new_samples ctx in
  match Decoder_DecodeInterleaved self clk consumed sample_count (ReadBuffer ctx) samples
          (Some performance) with
  | Crashed why => Crashed why
  | Returned r =>
      if negb (d_ok r) then
        Returned {| h_response := {| result := ResultCode_minus_1; pushed := [];
                                     WriteBuffer := None |};
                    h_session := with_decoder self (d_decoder r);
                    h_events := d_events r ++ [LogError FailedToDecode] |}
      else
        Returned {| h_response := {| result := RESULT_SUCCESS;
                                     pushed := [d_consumed r; d_sample_count r;
                                                match d_performance r with
                                                | Some p => p
                                                | None => performance
                                                end];
                                     WriteBuffer := Some (d_output r) |};
                    h_session := with_decoder self (d_decoder r);
                    h_events := d_events r |}
  end.

(** ** The decoder factory *)

Definition valid_sample_rate (sample_rate : Z) : bool :=
  (sample_rate =? 48000) || (sample_rate =? 24000) || (sample_rate =? 16000)
  || (sample_rate =? 12000) || (sample_rate =? 8000).

Definition valid_channel_count (channel_count : Z) : bool :=
  (channel_count =? 1) || (channel_count =? 2).

(** [opus_decoder_get_size] returns an [int]; the function returns
    [std::size_t]. *)
Definition WorkerBufferSize (channel_count : Z) : Outcome Z :=
  ASSERT_MSG (valid_channel_count channel_count) "Invalid channel count"
    (Returned (to_size_t (opus_decoder_get_size (to_int channel_count)))).

Definition GetWorkBufferSize (sample_rate channel_count : Z) : Outcome Response :=
  ASSERT_MSG (valid_sample_rate sample_rate) "Invalid sample rate"
    (ASSERT_MSG (valid_channel_count channel_count) "Invalid channel count"
       match WorkerBufferSize channel_count with
       | Crashed why => Crashed why
       | Returned worker_buffer_sz =>
           Returned {| result := RESULT_SUCCESS; pushed := [to_u32 worker_buffer_sz];
                       WriteBuffer := None |}
       end).

Record OpenOut : Type := {
  o_result : Z;
  o_session : option IHardwareOpusDecoderManager;
  o_events : list Event
}.

Definition OpenOpusDecoder (sample_rate channel_count buffer_sz : Z) : Outcome OpenOut :=
  ASSERT_MSG (valid_sample_rate sample_rate) "Invalid sample rate"
    (ASSERT_MSG (valid_channel_count channel_count) "Invalid channel count"
       match WorkerBufferSize channel_count with
       | Crashed why => Crashed why
       | Returned worker_sz =>
           ASSERT_MSG (buffer_sz >=? worker_sz) "Worker buffer too large"
             (let Fs := to_int sample_rate in
              let channels := to_int channel_count in
              let '(err, st) := opus_decoder_init Fs channels in
              if negb (err =? 0) then
                Returned {| o_result := ResultCode_minus_1; o_session := None;
                            o_events := [CallDecoderInit Fs channels;
                                         LogError (FailedToInit err)] |}
              else
                Returned {| o_result := RESULT_SUCCESS;
                            o_session := Some {| decoder := st;
                                                 sample_rate := sample_rate;
                                                 channel_count := channel_count |};
                            o_events := [CallDecoderInit Fs channels] |})
       end).

(** ** Vocabulary of the properties *)

Inductive Variant : Type := Plain | WithPerformance.

Definition decode_call (v : Variant)
  : IHardwareOpusDecoderManager -> Clock -> HLERequestContext -> Outcome HandlerOut :=
  match v with
  | Plain => DecodeInterleaved
  | WithPerformance => DecodeInterleavedWithPerformance
  end.

Definition input_length (input : list byte) : Z := Z.of_nat (length input).

(** The [payload_size] a packet declares. *)
Definition payload_size (input : list byte) : Z := sz (read_OpusHeader input).

(** Both framing checks pass. *)
Definition framing_ok (input : list byte) : bool :=
  (sizeof_OpusHeader <=? input_length input)
  && (sizeof_OpusHeader + payload_size input <=? input_length input).

(** The bytes behind the header, where [frame] points. *)
Definition frame_of (input : list byte) : list byte :=
  skipn (Z.to_nat sizeof_OpusHeader) input.

(** What the probe answers for this packet on this session. *)
Definition expected_sample_count (self : IHardwareOpusDecoderManager) (input : list byte) : Z :=
  opus_packet_get_nb_samples (frame_of input)
    (to_int (to_size_t (input_length input - sizeof_OpusHeader)))
    (to_int (sample_rate self)).

(** The byte size of the sample vector the handler allocates. *)
Definition raw_output_sz (ctx : HLERequestContext) : Z :=
  to_size_t (Z.of_nat (length (new_samples ctx)) * sizeof_opus_int16).

(** The frame-size ceiling handed to [opus_decode]. *)
Definition frame_size (self : IHardwareOpusDecoderManager) (ctx : HLERequestContext) : Z :=
  to_int (raw_output_sz ctx / sizeof_s16 / channel_count self).

(** The [opus_decode] call of a request, and its answer. *)
Definition decode_event (self : IHardwareOpusDecoderManager) (ctx : HLERequestContext) : Event :=
  CallDecode (frame_of (ReadBuffer ctx)) (to_int (payload_size (ReadBuffer ctx)))
             (frame_size self ctx) 0.

Definition decode_answer (self : IHardwareOpusDecoderManager) (ctx : HLERequestContext)
  : Z * list Z * OpusDecoder :=
  opus_decode (decoder self) (frame_of (ReadBuffer ctx))
    (to_int (payload_size (ReadBuffer ctx))) (frame_size self ctx) 0.

Definition probe_event (self : IHardwareOpusDecoderManager) (input : list byte) : Event :=
  CallGetNbSamples (frame_of input)
    (to_int (to_size_t (input_length input - sizeof_OpusHeader)))
    (to_int (sample_rate self)).

(** The milliseconds between function entry and the return of
    [opus_decode], as stored in the [u64]. *)
Definition measured_ms (clk : Clock) : Z :=
  to_u64 (duration_cast_ms (now_at_decode_return clk - now_at_entry clk)).

(** The milliseconds spent inside [opus_decode] alone. *)
Definition decode_only_ms (clk : Clock) : Z :=
  to_u64 (duration_cast_ms (now_at_decode_return clk - now_at_decode_call clk)).

Definition failure_response : Response :=
  {| result := ResultCode_minus_1; pushed := []; WriteBuffer := None |}.

(** The configuration every session built by [OpenOpusDecoder] has. *)
Definition session_ok (self : IHardwareOpusDecoderManager) : bool :=
  valid_sample_rate (sample_rate self) && valid_channel_count (channel_count self).

Definition succeeded (out : HandlerOut) : bool :=
  result (h_response out) =? RESULT_SUCCESS.

Definition succeeded_outcome (o : Outcome HandlerOut) : bool :=
  match o with
  | Returned out => succeeded out
  | Crashed _ => false
  end.

(** Readings of a clock that does not run backwards, within the range of
    its 64-bit tick count. *)
Definition clock_ok (clk : Clock) : Prop :=
  0 <= now_at_entry clk /\ now_at_entry clk <= now_at_decode_call clk
  /\ now_at_decode_call clk <= now_at_decode_return clk
  /\ now_at_decode_return clk < 2 ^ 63.

End Service.

(** ** Codec stubs

    [stub_codec probe decode]: the probe answers [probe] for every packet;
    the decoder state counts the decode calls made so far, and the call
    made in state [n] answers [decode n] (status, samples stored). *)

Lemma to_int_is_int (x : Z) : is_int (to_int x).
Proof.
  unfold is_int, to_int.
  pose proof (Z.mod_pos_bound (x + 2 ^ 31) (2 ^ 32) ltac:(lia)). lia.
Qed.

Lemma to_int_id (x : Z) : is_int x -> to_int x = x.
Proof.
  unfold is_int, to_int. intros H.
  rewrite Z.mod_small by lia. lia.
Qed.

Definition stub_codec (probe : Z) (decode : nat -> Z * list Z) : Codec :=
  {| OpusDecoder := nat;
     opus_decoder_get_size := fun _ => to_int 64;
     opus_decoder_init := fun _ _ => (to_int 0, O);
     opus_packet_get_nb_samples := fun _ _ _ => to_int probe;
     opus_decode := fun st _ _ _ _ => (to_int (fst (decode st)), snd (decode st), S st);
     opus_decoder_get_size_int := fun _ => to_int_is_int 64;
     opus_decoder_init_int := fun _ _ => to_int_is_int 0;
     opus_packet_get_nb_samples_int := fun _ _ _ => to_int_is_int probe;
     opus_decode_int := fun st _ _ _ _ => to_int_is_int (fst (decode st)) |}.

(** A packet: the header declaring [declared] payload bytes, then [rest]. *)
Definition packet (declared : byte) (rest : list byte) : list byte :=
  [x00; x00; x00; declared; x00; x00; x00; x00] ++ rest.

Definition stub_session (c : Codec) (st : @OpusDecoder c) (channels : Z)
  : @IHardwareOpusDecoderManager c :=
  {| decoder := st; sample_rate := 48000; channel_count := channels |}.

Definition clock0 : Clock :=
  {| now_at_entry := 0; now_at_decode_call := 0; now_at_decode_return := 0 |}.

(** ** Arithmetic of the conversions *)

Lemma to_u32_id (x : Z) : is_u32 x -> to_u32 x = x.
Proof. unfold is_u32, to_u32. intros H. apply Z.mod_small. lia. Qed.

Lemma to_u64_id (x : Z) : is_size_t x -> to_u64 x = x.
Proof. unfold is_size_t, to_u64. intros H. apply Z.mod_small. lia. Qed.

Lemma to_size_t_id (x : Z) : is_size_t x -> to_size_t x = x.
Proof. apply to_u64_id. Qed.

Lemma to_u32_range (x : Z) : is_u32 (to_u32 x).
Proof. unfold is_u32, to_u32. apply Z.mod_pos_bound. lia. Qed.

Lemma byte_val_range (b : byte) : 0 <= byte_val b < 256.
Proof.
  unfold byte_val. pose proof (Byte.to_N_bounded b). lia.
Qed.

Lemma u32_be_range (b0 b1 b2 b3 : byte) : is_u32 (u32_be b0 b1 b2 b3).
Proof.
  unfold is_u32, u32_be.
  pose proof (byte_val_range b0). pose proof (byte_val_range b1).
  pose proof (byte_val_range b2). pose proof (byte_val_range b3). lia.
Qed.

(** ** The paths through a decode request

    [DecodePath v self clk ctx o]: the request takes one of the six paths of
    [Decoder_DecodeInterleaved] and the handler ends with [o]. *)

Section Paths.
Context {codec : Codec}.

Lemma payload_size_range (input : list byte) : is_u32 (payload_size input).
Proof. unfold payload_size, read_OpusHeader. simpl. apply u32_be_range. Qed.

Lemma header_total (input : list byte) :
  to_size_t (sizeof_OpusHeader + to_u32 (sz (read_OpusHeader input)))
  = sizeof_OpusHeader + payload_size input.
Proof.
  pose proof (payload_size_range input) as H. unfold payload_size in *.
  rewrite (to_u32_id _ H). apply to_size_t_id.
  unfold is_size_t, is_u32, sizeof_OpusHeader in *. lia.
Qed.

Lemma framing_ok_iff (input : list byte) :
  framing_ok input = true
  <-> sizeof_OpusHeader <= input_length input
      /\ sizeof_OpusHeader + payload_size input <= input_length input.
Proof.
  unfold framing_ok. rewrite andb_true_iff, !Z.leb_le. reflexivity.
Qed.

Inductive DecodePath (v : Variant) (self : IHardwareOpusDecoderManager) (clk : Clock)
    (ctx : HLERequestContext) : Outcome HandlerOut -> Prop :=
| PathShort :
    input_length (ReadBuffer ctx) < sizeof_OpusHeader ->
    DecodePath v self clk ctx
      (Returned {| h_response := failure_response;
                   h_session := with_decoder self (decoder self);
                   h_events := [LogError (InputSmallerThanHeader sizeof_OpusHeader
                                            (input_length (ReadBuffer ctx)));
                                LogError FailedToDecode] |})
| PathOverrun :
    sizeof_OpusHeader <= input_length (ReadBuffer ctx) ->
    input_length (ReadBuffer ctx) < sizeof_OpusHeader + payload_size (ReadBuffer ctx) ->
    DecodePath v self clk ctx
      (Returned {| h_response := failure_response;
                   h_session := with_decoder self (decoder self);
                   h_events := [LogError (InputDoesNotFit
                                            (sizeof_OpusHeader + payload_size (ReadBuffer ctx))
                                            (input_length (ReadBuffer ctx)));
                                LogError FailedToDecode] |})
| PathCapacity :
    framing_ok (ReadBuffer ctx) = true ->
    raw_output_sz ctx
    < decoded_sz (expected_sample_count self (ReadBuffer ctx)) (channel_count self) ->
    DecodePath v self clk ctx
      (Returned {| h_response := failure_response;
                   h_session := with_decoder self (decoder self);
                   h_events := [probe_event self (ReadBuffer ctx);
                                LogError (DecodedDataDoesNotFit
                                            (decoded_sz (expected_sample_count self (ReadBuffer ctx))
                                                        (channel_count self))
                                            (raw_output_sz ctx));
                                LogError FailedToDecode] |})
| PathDivide :
    framing_ok (ReadBuffer ctx) = true ->
    decoded_sz (expected_sample_count self (ReadBuffer ctx)) (channel_count self)
    <= raw_output_sz ctx ->
    channel_count self = 0 ->
    DecodePath v self clk ctx (Crashed DivisionByZero)
| PathCodecError (out_sample_count : Z) (pcm : list Z) (st : OpusDecoder) :
    framing_ok (ReadBuffer ctx) = true ->
    decoded_sz (expected_sample_count self (ReadBuffer ctx)) (channel_count self)
    <= raw_output_sz ctx ->
    channel_count self <> 0 ->
    decode_answer self ctx = (out_sample_count, pcm, st) ->
    out_sample_count < 0 ->
    DecodePath v self clk ctx
      (Returned {| h_response := failure_response;
                   h_session := with_decoder self st;
                   h_events := [probe_event self (ReadBuffer ctx);
                                decode_event self ctx;
                                LogError (IncorrectSampleCount out_sample_count
                                            (frame_size self ctx)
                                            (to_u32 (payload_size (ReadBuffer ctx))));
                                LogError FailedToDecode] |})
| PathSuccess (out_sample_count : Z) (pcm : list Z) (st : OpusDecoder) :
    framing_ok (ReadBuffer ctx) = true ->
    decoded_sz (expected_sample_count self (ReadBuffer ctx)) (channel_count self)
    <= raw_output_sz ctx ->
    channel_count self <> 0 ->
    decode_answer self ctx = (out_sample_count, pcm, st) ->
    0 <= out_sample_count ->
    DecodePath v self clk ctx
      (Returned {| h_response :=
                     {| result := RESULT_SUCCESS;
                        pushed :=
                          to_u32 (to_size_t (sizeof_OpusHeader + payload_size (ReadBuffer ctx)))
                          :: to_u32 out_sample_count
                          :: match v with
                             | Plain => []
                             | WithPerformance => [measured_ms clk]
                             end;
                        WriteBuffer := Some (store_pcm pcm (new_samples ctx)) |};
                   h_session := with_decoder self st;
                   h_events := [probe_event self (ReadBuffer ctx); decode_event self ctx] |}).

Lemma decode_call_path (v : Variant) (self : IHardwareOpusDecoderManager) (clk : Clock)
    (ctx : HLERequestContext) :
  DecodePath v self clk ctx (decode_call v self clk ctx).
Proof.
  pose proof (header_total (ReadBuffer ctx)) as Htot.
  unfold decode_call.
  destruct v; unfold DecodeInterleaved, DecodeInterleavedWithPerformance,
    Decoder_DecodeInterleaved; cbv zeta;
  fold (input_length (ReadBuffer ctx)); rewrite Htot;
  fold (frame_of (ReadBuffer ctx));
  fold (expected_sample_count self (ReadBuffer ctx));
  fold (probe_event self (ReadBuffer ctx));
  fold (raw_output_sz ctx);
  fold (payload_size (ReadBuffer ctx));
  fold (frame_size self ctx);
  fold (decode_answer self ctx);
  fold (decode_event self ctx).
  all: destruct (Z.gtb_spec sizeof_OpusHeader (input_length (ReadBuffer ctx))) as [Hs | Hs];
    [ apply PathShort; lia | ].
  all: destruct (Z.gtb_spec (sizeof_OpusHeader + payload_size (ReadBuffer ctx))
                   (input_length (ReadBuffer ctx))) as [Ho | Ho];
    [ apply PathOverrun; lia | ].
  all: assert (Hf : framing_ok (ReadBuffer ctx) = true) by (apply framing_ok_iff; lia).
  all: destruct (Z.gtb_spec
                   (decoded_sz (expected_sample_count self (ReadBuffer ctx)) (channel_count self))
                   (raw_output_sz ctx)) as [Hc | Hc];
    [ apply PathCapacity; [ exact Hf | lia ] | ].
  all: destruct (Z.eqb_spec (channel_count self) 0) as [Hz | Hz];
    [ apply PathDivide; assumption | ].
  all: destruct (decode_answer self ctx) as [[out_sample_count pcm] st] eqn:Hd.
  all: destruct (Z.ltb_spec out_sample_count 0) as [Hn | Hn].
  - exact (PathCodecError Plain self clk ctx _ _ _ Hf Hc Hz Hd Hn).
  - exact (PathSuccess Plain self clk ctx _ _ _ Hf Hc Hz Hd Hn).
  - exact (PathCodecError WithPerformance self clk ctx _ _ _ Hf Hc Hz Hd Hn).
  - exact (PathSuccess WithPerformance self clk ctx _ _ _ Hf Hc Hz Hd Hn).
Qed.
End Paths.

(** ** Sizes and the capacity product *)

Section Sizes.
Context {codec : Codec}.

Lemma length_new_samples (ctx : HLERequestContext) :
  length (new_samples ctx) = Z.to_nat (GetWriteBufferSize ctx / sizeof_opus_int16).
Proof. unfold new_samples. apply repeat_length. Qed.

Lemma length_store_pcm (pcm output : list Z) :
  length (store_pcm pcm output) = length output.
Proof.
  unfold store_pcm. rewrite length_firstn, length_app, length_skipn. lia.
Qed.

Lemma raw_output_sz_eq (ctx : HLERequestContext) :
  is_size_t (GetWriteBufferSize ctx) ->
  raw_output_sz ctx = GetWriteBufferSize ctx / 2 * 2.
Proof.
  unfold is_size_t, raw_output_sz, sizeof_opus_int16. intros H.
  rewrite length_new_samples. unfold sizeof_opus_int16.
  assert (0 <= GetWriteBufferSize ctx / 2 <= GetWriteBufferSize ctx)
    by (split; [ apply Z.div_pos; lia | apply Z.div_le_upper_bound; lia ]).
  rewrite Z2Nat.id by lia.
  apply to_size_t_id. unfold is_size_t.
  pose proof (Z.mul_div_le (GetWriteBufferSize ctx) 2 ltac:(lia)). lia.
Qed.

Lemma raw_output_sz_le (ctx : HLERequestContext) :
  is_size_t (GetWriteBufferSize ctx) -> raw_output_sz ctx <= GetWriteBufferSize ctx.
Proof.
  intros H. rewrite (raw_output_sz_eq ctx H).
  pose proof (Z.mul_div_le (GetWriteBufferSize ctx) 2 ltac:(lia)). lia.
Qed.

Lemma valid_channel_count_cases (ch : Z) :
  valid_channel_count ch = true -> ch = 1 \/ ch = 2.
Proof.
  unfold valid_channel_count. rewrite orb_true_iff, !Z.eqb_eq. tauto.
Qed.

Lemma valid_sample_rate_is_int (sr : Z) : valid_sample_rate sr = true -> is_int sr.
Proof.
  unfold valid_sample_rate, is_int. rewrite !orb_true_iff, !Z.eqb_eq. lia.
Qed.

Lemma session_ok_channels (self : IHardwareOpusDecoderManager) :
  session_ok self = true -> channel_count self = 1 \/ channel_count self = 2.
Proof.
  unfold session_ok. rewrite andb_true_iff. intros [_ H].
  apply valid_channel_count_cases, H.
Qed.

Lemma session_ok_rate (self : IHardwareOpusDecoderManager) :
  session_ok self = true -> to_int (sample_rate self) = sample_rate self.
Proof.
  unfold session_ok. rewrite andb_true_iff. intros [H _].
  apply to_int_id, valid_sample_rate_is_int, H.
Qed.

(** No wrap-around for a non-negative estimate on one or two channels. *)
Lemma decoded_sz_exact (n ch : Z) :
  is_int n -> 0 <= n -> ch = 1 \/ ch = 2 ->
  decoded_sz n ch = n * ch * 2.
Proof.
  unfold is_int, decoded_sz, sizeof_u16. intros Hn H0 Hch.
  rewrite (to_u32_id n) by (unfold is_u32; lia).
  rewrite (to_u32_id (n * ch)) by (unfold is_u32; destruct Hch; subst; lia).
  apply to_size_t_id. unfold is_size_t. destruct Hch; subst; lia.
Qed.

(** The product for a negative probe result [n]: [n] is first read as the
    unsigned [2^32 + n]. *)
Lemma decoded_sz_negative_mono (n : Z) :
  is_int n -> n < 0 -> decoded_sz n 1 = (2 ^ 32 + n) * 2.
Proof.
  unfold is_int, decoded_sz, sizeof_u16, to_u32. intros Hn H0.
  replace (n mod 2 ^ 32) with (2 ^ 32 + n)
    by (apply Z.mod_unique with (q := -1); lia).
  rewrite Z.mul_1_r, (Z.mod_small (2 ^ 32 + n)) by lia.
  apply to_size_t_id. unfold is_size_t. lia.
Qed.

Lemma decoded_sz_negative_stereo (n : Z) :
  is_int n -> n < 0 -> decoded_sz n 2 = (2 ^ 32 + 2 * n) * 2.
Proof.
  unfold is_int, decoded_sz, sizeof_u16, to_u32. intros Hn H0.
  replace (n mod 2 ^ 32) with (2 ^ 32 + n)
    by (apply Z.mod_unique with (q := -1); lia).
  replace (((2 ^ 32 + n) * 2) mod 2 ^ 32) with (2 ^ 32 + 2 * n)
    by (apply Z.mod_unique with (q := 1); lia).
  apply to_size_t_id. unfold is_size_t. lia.
Qed.

(** The ceiling is the plain quotient while it fits an [int]. *)
Lemma frame_size_eq (self : IHardwareOpusDecoderManager) (ctx : HLERequestContext) :
  0 <= GetWriteBufferSize ctx < 2 ^ 32 ->
  0 < channel_count self ->
  frame_size self ctx = GetWriteBufferSize ctx / 2 / channel_count self.
Proof.
  intros Hcap Hch. unfold frame_size, sizeof_s16.
  rewrite raw_output_sz_eq by (unfold is_size_t; lia).
  rewrite Z.div_mul by lia.
  assert (0 <= GetWriteBufferSize ctx / 2 < 2 ^ 31)
    by (split; [ apply Z.div_pos; lia | apply Z.div_lt_upper_bound; lia ]).
  assert (0 <= GetWriteBufferSize ctx / 2 / channel_count self
          <= GetWriteBufferSize ctx / 2).
  { split; [ apply Z.div_pos; lia | ].
    apply Z.div_le_upper_bound; [ lia | ]. nia. }
  apply to_int_id. unfold is_int. lia.
Qed.

(** The ceiling never lets the codec write past the sample vector. *)
Lemma frame_size_fits (self : IHardwareOpusDecoderManager) (ctx : HLERequestContext) :
  0 <= GetWriteBufferSize ctx < 2 ^ 32 ->
  0 < channel_count self ->
  frame_size self ctx * channel_count self <= Z.of_nat (length (new_samples ctx)).
Proof.
  intros Hcap Hch. rewrite frame_size_eq by assumption.
  rewrite length_new_samples. unfold sizeof_opus_int16.
  rewrite Z2Nat.id by (apply Z.div_pos; lia).
  rewrite Z.mul_comm. apply Z.mul_div_le. lia.
Qed.

End Sizes.

(** ** The factory builds well-formed sessions *)

Section Factory.
Context {codec : Codec}.

Lemma ASSERT_MSG_returned {A : Type} (cond : bool) (msg : string) (k : Outcome A) (a : A) :
  ASSERT_MSG cond msg k = Returned a -> cond = true /\ k = Returned a.
Proof. unfold ASSERT_MSG. destruct cond; [ auto | discriminate ]. Qed.

Lemma WorkerBufferSize_valid (ch : Z) :
  valid_channel_count ch = true ->
  WorkerBufferSize ch = Returned (to_size_t (opus_decoder_get_size (to_int ch))).
Proof. unfold WorkerBufferSize, ASSERT_MSG. intros ->. reflexivity. Qed.

Lemma OpenOpusDecoder_returned (sr ch bsz : Z) (out : OpenOut) :
  OpenOpusDecoder sr ch bsz = Returned out ->
  valid_sample_rate sr = true /\ valid_channel_count ch = true
  /\ to_size_t (opus_decoder_get_size (to_int ch)) <= bsz
  /\ (forall s, o_session out = Some s -> sample_rate s = sr /\ channel_count s = ch).
Proof.
  unfold OpenOpusDecoder. intros H.
  apply ASSERT_MSG_returned in H as [Hsr H].
  apply ASSERT_MSG_returned in H as [Hch H].
  rewrite (WorkerBufferSize_valid ch Hch) in H.
  apply ASSERT_MSG_returned in H as [Hsz H].
  split; [ exact Hsr | ]. split; [ exact Hch | ].
  split; [ apply Z.geb_le in Hsz; lia | ].
  intros s Hs.
  destruct (opus_decoder_init (to_int sr) (to_int ch)) as [err st].
  destruct (negb (err =? 0)); inversion H; subst; simpl in Hs.
  - discriminate Hs.
  - inversion Hs; subst. simpl. auto.
Qed.

Lemma OpenOpusDecoder_session_ok (sr ch bsz : Z) (out : OpenOut)
    (s : IHardwareOpusDecoderManager) :
  OpenOpusDecoder sr ch bsz = Returned out -> o_session out = Some s ->
  session_ok s = true.
Proof.
  intros H Hs. apply OpenOpusDecoder_returned in H as (Hsr & Hch & _ & Hcfg).
  destruct (Hcfg s Hs) as [Rs Rc]. unfold session_ok. now rewrite Rs, Rc, Hsr, Hch.
Qed.

End Factory.

(** ** Facts shared by the properties of a decode request *)

Section Requests.
Context {codec : Codec}.

Lemma with_decoder_self (self : IHardwareOpusDecoderManager) :
  with_decoder self (decoder self) = self.
Proof. destruct self. reflexivity. Qed.

Lemma framing_ok_not_short (input : list byte) :
  framing_ok input = true -> input_length input < sizeof_OpusHeader -> False.
Proof. rewrite framing_ok_iff. lia. Qed.

Lemma framing_ok_not_overrun (input : list byte) :
  framing_ok input = true ->
  input_length input < sizeof_OpusHeader + payload_size input -> False.
Proof. rewrite framing_ok_iff. lia. Qed.

(** A request on a configured session returns; the only fault of the
    decode path is the division by a zero channel count. *)
Lemma decode_call_returns (v : Variant) (self : IHardwareOpusDecoderManager) (clk : Clock)
    (ctx : HLERequestContext) :
  channel_count self <> 0 -> exists out, decode_call v self clk ctx = Returned out.
Proof.
  intros Hch. destruct (decode_call_path v self clk ctx); try (eexists; reflexivity).
  contradiction.
Qed.

(** The [consumed] word in general: the sum, cut to 32 bits. *)
Lemma consumed_word (v : Variant) (self : IHardwareOpusDecoderManager) (clk : Clock)
    (ctx : HLERequestContext) (out : HandlerOut) :
  decode_call v self clk ctx = Returned out -> succeeded out = true ->
  nth_error (pushed (h_response out)) 0
  = Some (to_u32 (sizeof_OpusHeader + payload_size (ReadBuffer ctx))).
Proof.
  intros Hcall Hok. pose proof (decode_call_path v self clk ctx) as P.
  rewrite Hcall in P.
  inversion P; subst; try discriminate Hok.
  cbn [nth_error pushed h_response]. f_equal. f_equal. apply to_size_t_id.
  pose proof (payload_size_range (ReadBuffer ctx)) as Hp.
  unfold is_size_t, is_u32, sizeof_OpusHeader in *. lia.
Qed.

(** The ceiling in general: the quotient, cut to an [int]. *)
Lemma decode_ceiling (v : Variant) (self : IHardwareOpusDecoderManager) (clk : Clock)
    (ctx : HLERequestContext) (out : HandlerOut) (frame : list byte) (len fsz fec : Z) :
  decode_call v self clk ctx = Returned out ->
  In (CallDecode frame len fsz fec) (h_events out) ->
  fsz = to_int (raw_output_sz ctx / sizeof_s16 / channel_count self)
  /\ frame = frame_of (ReadBuffer ctx)
  /\ len = to_int (payload_size (ReadBuffer ctx)) /\ fec = 0.
Proof.
  intros Hcall Hin. pose proof (decode_call_path v self clk ctx) as P.
  rewrite Hcall in P.
  inversion P; subst; simpl in Hin; unfold probe_event, decode_event in Hin;
    repeat (destruct Hin as [Hin | Hin]; [ try discriminate Hin | ]);
    try contradiction;
    inversion Hin; subst; auto.
Qed.

End Requests.

(** ** Concrete requests used to exercise the properties *)

(** One sample estimated, one sample ([7]) decoded, every time. *)
Definition one_sample_codec : Codec := stub_codec 1 (fun _ => (1, [7])).

(** Five samples estimated, one sample decoded. *)
Definition five_sample_codec : Codec := stub_codec 5 (fun _ => (1, [7])).

(** A packet declaring one payload byte, followed by two bytes. *)
Definition trailing_packet : list byte := packet x01 [x2a; x2b].

Definition request (input : list byte) (capacity : Z) : HLERequestContext :=
  {| ReadBuffer := input; GetWriteBufferSize := capacity |}.

(** ** Framing *)

(** C4 — an input shorter than the 8-byte header: either variant answers
    the failure code after logging the framing error "input smaller than
    header"; the handler returns (no fault), hands nothing to
    [WriteBuffer], never calls the codec and leaves the session as it was. *)
Theorem short_input_is_framing_error (codec : Codec) (v : Variant)
    (self : IHardwareOpusDecoderManager) (clk : Clock) (ctx : HLERequestContext) :
  input_length (ReadBuffer ctx) < sizeof_OpusHeader ->
  exists out,
    decode_call v self clk ctx = Returned out
    /\ result (h_response out) = ResultCode_minus_1
    /\ logged_kinds (h_events out) = [FramingError]
    /\ WriteBuffer (h_response out) = None
    /\ codec_calls (h_events out) = []
    /\ h_session out = self.
Proof.
  intros Hshort.
  destruct (decode_call_path v self clk ctx) as [ | Hlen | Hf | Hf | ? ? ? Hf | ? ? ? Hf ];
    try (exfalso; apply (framing_ok_not_short _ Hf Hshort)); try lia.
  eexists. split; [ reflexivity | ]. cbn.
  rewrite with_decoder_self. auto.
Qed.

Lemma short_input_is_framing_error_witness :
  input_length (ReadBuffer (request [x00; x00; x00] 8)) < sizeof_OpusHeader
  /\ exists out,
       decode_call WithPerformance (stub_session one_sample_codec O 2) clock0
         (request [x00; x00; x00] 8) = Returned out
       /\ result (h_response out) = ResultCode_minus_1
       /\ logged_kinds (h_events out) = [FramingError]
       /\ WriteBuffer (h_response out) = None
       /\ codec_calls (h_events out) = []
       /\ h_session out = stub_session one_sample_codec O 2.
Proof.
  split.
  - reflexivity.
  - apply (short_input_is_framing_error one_sample_codec WithPerformance). reflexivity.
Defined.

(** The declared payload size is the big-endian reading of the first four
    bytes; the next four are ignored. *)
Lemma payload_size_big_endian (b0 b1 b2 b3 : byte) (rest : list byte) :
  payload_size (b0 :: b1 :: b2 :: b3 :: rest)
  = byte_val b0 * 2 ^ 24 + byte_val b1 * 2 ^ 16 + byte_val b2 * 2 ^ 8 + byte_val b3.
Proof. reflexivity. Qed.

(** C5 — an input of at least 8 bytes whose declared payload overruns it
    ([sizeof(Header) + payload_size > input.length]): the call answers the
    failure code after logging the framing error "payload exceeds input
    size", and the codec is never called. *)
Theorem payload_overrun_is_framing_error (codec : Codec) (v : Variant)
    (self : IHardwareOpusDecoderManager) (clk : Clock) (ctx : HLERequestContext) :
  sizeof_OpusHeader <= input_length (ReadBuffer ctx) ->
  sizeof_OpusHeader + payload_size (ReadBuffer ctx) > input_length (ReadBuffer ctx) ->
  exists out,
    decode_call v self clk ctx = Returned out
    /\ result (h_response out) = ResultCode_minus_1
    /\ logged_kinds (h_events out) = [FramingError]
    /\ codec_calls (h_events out) = []
    /\ WriteBuffer (h_response out) = None.
Proof.
  intros Hlen Hover.
  destruct (decode_call_path v self clk ctx) as [ | ? ? | Hf | Hf | ? ? ? Hf | ? ? ? Hf ];
    try (exfalso; apply (framing_ok_not_overrun _ Hf); lia); try lia.
  eexists. split; [ reflexivity | ]. cbn. auto.
Qed.

Lemma payload_overrun_is_framing_error_witness :
  sizeof_OpusHeader <= input_length (ReadBuffer (request (packet x03 [x2a; x2b]) 8))
  /\ sizeof_OpusHeader + payload_size (ReadBuffer (request (packet x03 [x2a; x2b]) 8))
     > input_length (ReadBuffer (request (packet x03 [x2a; x2b]) 8))
  /\ exists out,
       decode_call Plain (stub_session one_sample_codec O 1) clock0
         (request (packet x03 [x2a; x2b]) 8) = Returned out
       /\ result (h_response out) = ResultCode_minus_1
       /\ logged_kinds (h_events out) = [FramingError]
       /\ codec_calls (h_events out) = []
       /\ WriteBuffer (h_response out) = None.
Proof.
  split; [ vm_compute; discriminate | ].
  split; [ reflexivity | ].
  apply (payload_overrun_is_framing_error one_sample_codec Plain).
  - vm_compute; discriminate.
  - reflexivity.
Defined.

(** ** The capacity check *)

(** C3 — for a packet that passes the framing checks, on a session with one
    or two channels: if [expected_sample_count * channel_count * 2] bytes
    exceed the declared output capacity, the call fails with the capacity
    error and [opus_decode] is not called; and whenever [opus_decode] is
    called, its frame-size ceiling is [output_capacity / 2 / channel_count]
    (for a capacity below 4 GiB, where the quotient is an [int];
    [decode_ceiling] gives the ceiling of larger buffers). *)
Theorem capacity_checked_before_decode (codec : Codec) (v : Variant)
    (self : IHardwareOpusDecoderManager) (clk : Clock) (ctx : HLERequestContext) :
  session_ok self = true ->
  is_size_t (GetWriteBufferSize ctx) ->
  framing_ok (ReadBuffer ctx) = true ->
  (expected_sample_count self (ReadBuffer ctx) * channel_count self * 2
   > GetWriteBufferSize ctx ->
   exists out,
     decode_call v self clk ctx = Returned out
     /\ result (h_response out) = ResultCode_minus_1
     /\ logged_kinds (h_events out) = [CapacityError]
     /\ decode_calls (h_events out) = []
     /\ WriteBuffer (h_response out) = None)
  /\ (forall out frame len fsz fec,
        GetWriteBufferSize ctx < 2 ^ 32 ->
        decode_call v self clk ctx = Returned out ->
        In (CallDecode frame len fsz fec) (h_events out) ->
        fsz = GetWriteBufferSize ctx / 2 / channel_count self).
Proof.
  intros Hok Hcap Hf.
  pose proof (session_ok_channels self Hok) as Hch.
  split.
  - intros Hexc.
    pose proof (opus_packet_get_nb_samples_int (frame_of (ReadBuffer ctx))
                  (to_int (to_size_t (input_length (ReadBuffer ctx) - sizeof_OpusHeader)))
                  (to_int (sample_rate self))) as Hint.
    fold (expected_sample_count self (ReadBuffer ctx)) in Hint.
    unfold is_size_t in Hcap.
    assert (Hpos : 0 <= expected_sample_count self (ReadBuffer ctx))
      by (destruct Hch as [Hc | Hc]; rewrite Hc in Hexc; lia).
    pose proof (decoded_sz_exact _ _ Hint Hpos Hch) as Hsz.
    pose proof (raw_output_sz_le ctx) as Hraw.
    unfold is_size_t in Hraw. specialize (Hraw ltac:(lia)).
    destruct (decode_call_path v self clk ctx)
      as [ Hs | ? Ho | ? ? | ? ? ? | ? ? ? ? ? ? ? ? | ? ? ? ? ? ? ? ? ];
      try lia.
    + exfalso. apply (framing_ok_not_short _ Hf Hs).
    + exfalso. apply (framing_ok_not_overrun _ Hf Ho).
    + eexists. split; [ reflexivity | ]. cbn. auto.
  - intros out frame len fsz fec Hsmall Hcall Hin.
    destruct (decode_ceiling v self clk ctx out frame len fsz fec Hcall Hin) as [-> _].
    unfold is_size_t in Hcap.
    apply frame_size_eq; [ lia | destruct Hch; lia ].
Qed.

Lemma capacity_checked_before_decode_witness :
  session_ok (stub_session five_sample_codec O 2) = true
  /\ is_size_t (GetWriteBufferSize (request trailing_packet 16))
  /\ framing_ok (ReadBuffer (request trailing_packet 16)) = true
  /\ (expected_sample_count (stub_session five_sample_codec O 2)
        (ReadBuffer (request trailing_packet 16))
      * channel_count (stub_session five_sample_codec O 2) * 2
      > GetWriteBufferSize (request trailing_packet 16) ->
      exists out,
        decode_call Plain (stub_session five_sample_codec O 2) clock0
          (request trailing_packet 16) = Returned out
        /\ result (h_response out) = ResultCode_minus_1
        /\ logged_kinds (h_events out) = [CapacityError]
        /\ decode_calls (h_events out) = []
        /\ WriteBuffer (h_response out) = None)
  /\ (forall out frame len fsz fec,
        GetWriteBufferSize (request trailing_packet 16) < 2 ^ 32 ->
        decode_call Plain (stub_session five_sample_codec O 2) clock0
          (request trailing_packet 16) = Returned out ->
        In (CallDecode frame len fsz fec) (h_events out) ->
        fsz = GetWriteBufferSize (request trailing_packet 16) / 2
              / channel_count (stub_session five_sample_codec O 2)).
Proof.
  split; [ reflexivity | ].
  split; [ unfold is_size_t; simpl; lia | ].
  split; [ reflexivity | ].
  apply (capacity_checked_before_decode five_sample_codec Plain).
  - reflexivity.
  - unfold is_size_t; simpl; lia.
  - reflexivity.
Defined.

(** A five-sample stereo estimate needs twenty bytes: sixteen are refused
    before [opus_decode], twenty are accepted with a ceiling of five. *)
Example capacity_sixteen_refused :
  decode_call Plain (stub_session five_sample_codec O 2) clock0
    (request trailing_packet 16)
  = Returned
      {| h_response := failure_response;
         h_session := stub_session five_sample_codec O 2;
         h_events := [CallGetNbSamples [x2a; x2b] 2 48000;
                      LogError (DecodedDataDoesNotFit 20 16);
                      LogError FailedToDecode] |}.
Proof. reflexivity. Qed.

Example capacity_twenty_accepted :
  decode_call Plain (stub_session five_sample_codec O 2) clock0
    (request trailing_packet 20)
  = Returned
      {| h_response := {| result := RESULT_SUCCESS; pushed := [9; 1];
                          WriteBuffer := Some [7; 0; 0; 0; 0; 0; 0; 0; 0; 0] |};
         h_session := stub_session five_sample_codec 1%nat 2;
         h_events := [CallGetNbSamples [x2a; x2b] 2 48000;
                      CallDecode [x2a; x2b] 1 5 0] |}.
Proof. reflexivity. Qed.

(** ** Consumption *)

(** C6 — on success the [consumed] word is [sizeof(Header) + payload_size],
    [8] plus the big-endian size the header declares, whatever the codec
    did with the payload (the codec is arbitrary here).  The input is
    shorter than 4 GiB, so that the sum fits the [u32] it is returned in;
    [consumed_word] gives the word without that bound. *)
Theorem consumed_is_header_plus_payload (codec : Codec) (v : Variant)
    (self : IHardwareOpusDecoderManager) (clk : Clock) (ctx : HLERequestContext)
    (out : HandlerOut) :
  input_length (ReadBuffer ctx) < 2 ^ 32 ->
  decode_call v self clk ctx = Returned out ->
  succeeded out = true ->
  nth_error (pushed (h_response out)) 0
  = Some (sizeof_OpusHeader + payload_size (ReadBuffer ctx)).
Proof.
  intros Hlen Hcall Hok.
  rewrite (consumed_word v self clk ctx out Hcall Hok). f_equal.
  assert (Hf : framing_ok (ReadBuffer ctx) = true).
  { pose proof (decode_call_path v self clk ctx) as P. rewrite Hcall in P.
    inversion P; subst; try discriminate Hok. assumption. }
  apply framing_ok_iff in Hf.
  pose proof (payload_size_range (ReadBuffer ctx)) as Hp.
  apply to_u32_id. unfold is_u32, sizeof_OpusHeader in *. lia.
Qed.

Lemma consumed_is_header_plus_payload_witness :
  input_length (ReadBuffer (request trailing_packet 8)) < 2 ^ 32
  /\ decode_call WithPerformance (stub_session one_sample_codec O 1) clock0
       (request trailing_packet 8)
     = Returned
         {| h_response := {| result := RESULT_SUCCESS; pushed := [9; 1; 0];
                             WriteBuffer := Some [7; 0; 0; 0] |};
            h_session := stub_session one_sample_codec 1%nat 1;
            h_events := [CallGetNbSamples [x2a; x2b] 2 48000;
                         CallDecode [x2a; x2b] 1 4 0] |}
  /\ nth_error [9; 1; 0] 0
     = Some (sizeof_OpusHeader + payload_size (ReadBuffer (request trailing_packet 8))).
Proof.
  split; [ reflexivity | ].
  split; [ reflexivity | ].
  apply (consumed_is_header_plus_payload one_sample_codec WithPerformance
           (stub_session one_sample_codec O 1) clock0 (request trailing_packet 8)
           {| h_response := {| result := RESULT_SUCCESS; pushed := [9; 1; 0];
                               WriteBuffer := Some [7; 0; 0; 0] |};
              h_session := stub_session one_sample_codec 1%nat 1;
              h_events := [CallGetNbSamples [x2a; x2b] 2 48000;
                           CallDecode [x2a; x2b] 1 4 0] |});
    reflexivity.
Defined.

(** ** Opening a decoder *)

(** C8 — with a whitelisted sample rate and channel count, a work buffer
    smaller than [WorkerBufferSize channel_count] stops [OpenOpusDecoder]
    at its assertion (a contract error: no response, no session); a session
    is returned only when the buffer is at least that size. *)
Theorem undersized_work_buffer_never_opens (codec : Codec) (sample_rate channel_count
    buffer_sz required : Z) :
  valid_sample_rate sample_rate = true ->
  valid_channel_count channel_count = true ->
  WorkerBufferSize channel_count = Returned required ->
  (buffer_sz < required ->
   OpenOpusDecoder sample_rate channel_count buffer_sz
   = Crashed (AssertionFailed "Worker buffer too large"))
  /\ (forall out s,
        OpenOpusDecoder sample_rate channel_count buffer_sz = Returned out ->
        o_session out = Some s -> required <= buffer_sz).
Proof.
  intros Hsr Hch Hreq. split.
  - intros Hsmall. unfold OpenOpusDecoder. rewrite Hsr, Hch, Hreq.
    unfold ASSERT_MSG.
    destruct (Z.geb_spec buffer_sz required) as [Hge | Hlt]; [ lia | reflexivity ].
  - intros out s Hopen _.
    apply OpenOpusDecoder_returned in Hopen as (_ & _ & Hle & _).
    rewrite (WorkerBufferSize_valid channel_count Hch) in Hreq.
    inversion Hreq; subst. exact Hle.
Qed.

Lemma undersized_work_buffer_never_opens_witness :
  valid_sample_rate 48000 = true
  /\ valid_channel_count 2 = true
  /\ @WorkerBufferSize one_sample_codec 2 = Returned 64
  /\ (63 < 64 ->
      @OpenOpusDecoder one_sample_codec 48000 2 63
      = Crashed (AssertionFailed "Worker buffer too large"))
  /\ (forall out s,
        @OpenOpusDecoder one_sample_codec 48000 2 63 = Returned out ->
        o_session out = Some s -> 64 <= 63).
Proof.
  split; [ reflexivity | ].
  split; [ reflexivity | ].
  split; [ reflexivity | ].
  apply (undersized_work_buffer_never_opens one_sample_codec 48000 2 63 64); reflexivity.
Defined.

(** The same stub opens with a buffer of exactly the required size. *)
Example exact_work_buffer_opens :
  @OpenOpusDecoder one_sample_codec 48000 2 64
  = Returned {| o_result := RESULT_SUCCESS;
                o_session := Some (stub_session one_sample_codec O 2);
                o_events := [CallDecoderInit 48000 2] |}.
Proof. reflexivity. Qed.

(** ** Timing *)

(** The timing property as the specification words it: on success the
    reported milliseconds are non-negative and are those spent between the
    call of [opus_decode] and its return, nothing else. *)
Definition elapsed_brackets_decode_only : Prop :=
  forall (codec : Codec) (self : IHardwareOpusDecoderManager) (clk : Clock)
         (ctx : HLERequestContext) (out : HandlerOut),
    clock_ok clk ->
    DecodeInterleavedWithPerformance self clk ctx = Returned out ->
    succeeded out = true ->
    exists elapsed_ms,
      nth_error (pushed (h_response out)) 2 = Some elapsed_ms
      /\ 0 <= elapsed_ms
      /\ elapsed_ms = decode_only_ms clk.

(** Five milliseconds pass between function entry and the call of
    [opus_decode] (header checks, probe, capacity check); [opus_decode]
    itself takes none. *)
Definition slow_validation_clock : Clock :=
  {| now_at_entry := 0; now_at_decode_call := 5000000; now_at_decode_return := 5000000 |}.

Example slow_validation_run :
  DecodeInterleavedWithPerformance (stub_session one_sample_codec O 1)
    slow_validation_clock (request trailing_packet 8)
  = Returned
      {| h_response := {| result := RESULT_SUCCESS; pushed := [9; 1; 5];
                          WriteBuffer := Some [7; 0; 0; 0] |};
         h_session := stub_session one_sample_codec 1%nat 1;
         h_events := [CallGetNbSamples [x2a; x2b] 2 48000;
                      CallDecode [x2a; x2b] 1 4 0] |}.
Proof. reflexivity. Qed.

(** C1, as stated, fails: with [slow_validation_clock] the call reports
    5 ms although [opus_decode] took 0 ms; [start_time] is read on entry,
    before the header checks. *)
Lemma elapsed_brackets_decode_only_fails : ~ elapsed_brackets_decode_only.
Proof.
  intros claim.
  destruct (claim one_sample_codec (stub_session one_sample_codec O 1)
              slow_validation_clock (request trailing_packet 8) _
              ltac:(unfold clock_ok; simpl; lia) eq_refl eq_refl)
    as (elapsed_ms & Hword & _ & Heq).
  vm_compute in Hword. vm_compute in Heq. congruence.
Qed.

(** C1, amended — on success [DecodeInterleavedWithPerformance] reports the
    whole milliseconds between the entry of [Decoder_DecodeInterleaved]
    and the return of [opus_decode]: non-negative, at least the time spent
    inside [opus_decode], and including the header checks, the probe and
    the capacity check that run in between. *)
Theorem elapsed_measures_entry_to_decode_return (codec : Codec)
    (self : IHardwareOpusDecoderManager) (clk : Clock) (ctx : HLERequestContext)
    (out : HandlerOut) :
  clock_ok clk ->
  DecodeInterleavedWithPerformance self clk ctx = Returned out ->
  succeeded out = true ->
  exists elapsed_ms,
    nth_error (pushed (h_response out)) 2 = Some elapsed_ms
    /\ elapsed_ms = (now_at_decode_return clk - now_at_entry clk) / ticks_per_ms
    /\ 0 <= elapsed_ms
    /\ decode_only_ms clk <= elapsed_ms.
Proof.
  intros (H0 & H1 & H2 & H3) Hcall Hok.
  pose proof (decode_call_path WithPerformance self clk ctx) as P.
  change (decode_call WithPerformance self clk ctx)
    with (DecodeInterleavedWithPerformance self clk ctx) in P.
  rewrite Hcall in P. inversion P; subst; try discriminate Hok.
  exists (measured_ms clk). cbn [nth_error pushed h_response].
  assert (Hms : forall d, 0 <= d < 2 ^ 63 ->
                  to_u64 (duration_cast_ms d) = d / ticks_per_ms
                  /\ 0 <= d / ticks_per_ms).
  { intros d Hd. unfold duration_cast_ms, ticks_per_ms.
    rewrite Z.quot_div_nonneg by lia.
    assert (0 <= d / 1000000 <= d)
      by (split; [ apply Z.div_pos; lia | apply Z.div_le_upper_bound; lia ]).
    split; [ apply to_u64_id; unfold is_size_t; lia | lia ]. }
  unfold measured_ms, decode_only_ms.
  destruct (Hms (now_at_decode_return clk - now_at_entry clk) ltac:(lia)) as [-> Hnn].
  destruct (Hms (now_at_decode_return clk - now_at_decode_call clk) ltac:(lia)) as [-> _].
  repeat split; try assumption; try reflexivity.
  apply Z.div_le_mono; unfold ticks_per_ms; lia.
Qed.

Lemma elapsed_measures_entry_to_decode_return_witness :
  clock_ok slow_validation_clock
  /\ exists elapsed_ms,
       nth_error [9; 1; 5] 2 = Some elapsed_ms
       /\ elapsed_ms = (now_at_decode_return slow_validation_clock
                        - now_at_entry slow_validation_clock) / ticks_per_ms
       /\ 0 <= elapsed_ms
       /\ decode_only_ms slow_validation_clock <= elapsed_ms.
Proof.
  split; [ unfold clock_ok; simpl; lia | ].
  apply (elapsed_measures_entry_to_decode_return one_sample_codec
           (stub_session one_sample_codec O 1) slow_validation_clock
           (request trailing_packet 8)
           {| h_response := {| result := RESULT_SUCCESS; pushed := [9; 1; 5];
                               WriteBuffer := Some [7; 0; 0; 0] |};
              h_session := stub_session one_sample_codec 1%nat 1;
              h_events := [CallGetNbSamples [x2a; x2b] 2 48000;
                           CallDecode [x2a; x2b] 1 4 0] |}).
  - unfold clock_ok; simpl; lia.
  - reflexivity.
  - reflexivity.
Defined.

(** ** The samples written back *)

(** The write-back property as the specification words it: on success
    exactly [sample_count * channel_count] samples reach the caller's
    buffer, [sample_count] being what [opus_decode] returned. *)
Definition writes_sample_count_samples : Prop :=
  forall (codec : Codec) (v : Variant) (self : IHardwareOpusDecoderManager) (clk : Clock)
         (ctx : HLERequestContext) (out : HandlerOut),
    session_ok self = true ->
    0 <= GetWriteBufferSize ctx < 2 ^ 32 ->
    decode_call v self clk ctx = Returned out ->
    succeeded out = true ->
    exists written sample_count,
      WriteBuffer (h_response out) = Some written
      /\ nth_error (pushed (h_response out)) 1 = Some sample_count
      /\ sample_count = fst (fst (decode_answer self ctx))
      /\ Z.of_nat (length written) = sample_count * channel_count self.

(** C2, as stated, fails: a mono session, 8 bytes of output capacity and a
    codec that decodes one sample.  [sample_count] is 1, yet
    [ctx.WriteBuffer(samples.data(), samples.size() * sizeof(s16))] hands
    over all four samples of the vector, [7; 0; 0; 0]. *)
Lemma writes_sample_count_samples_fails : ~ writes_sample_count_samples.
Proof.
  intros claim.
  destruct (claim one_sample_codec Plain (stub_session one_sample_codec O 1) clock0
              (request trailing_packet 8) _ eq_refl
              ltac:(simpl; lia) eq_refl eq_refl)
    as (written & sample_count & Hw & Hsc & _ & Hlen).
  vm_compute in Hw. vm_compute in Hsc.
  inversion Hw; subst written. inversion Hsc; subst sample_count.
  vm_compute in Hlen. discriminate Hlen.
Qed.

(** C2, amended — on success the whole sample vector is written:
    [output_capacity / 2] samples, namely what [opus_decode] stored laid
    over the zero-initialised vector; the [sample_count] word is what
    [opus_decode] returned. *)
Theorem whole_sample_vector_is_written (codec : Codec) (v : Variant)
    (self : IHardwareOpusDecoderManager) (clk : Clock) (ctx : HLERequestContext)
    (out : HandlerOut) :
  0 <= GetWriteBufferSize ctx ->
  decode_call v self clk ctx = Returned out ->
  succeeded out = true ->
  exists written,
    WriteBuffer (h_response out) = Some written
    /\ Z.of_nat (length written) = GetWriteBufferSize ctx / 2
    /\ written = store_pcm (snd (fst (decode_answer self ctx)))
                   (repeat 0 (Z.to_nat (GetWriteBufferSize ctx / 2)))
    /\ nth_error (pushed (h_response out)) 1 = Some (fst (fst (decode_answer self ctx))).
Proof.
  intros Hcap Hcall Hok.
  pose proof (decode_call_path v self clk ctx) as P. rewrite Hcall in P.
  inversion P as [ | | | | | n pcm st Hf Hfit Hch Hans Hn Hout ]; subst;
    try discriminate Hok.
  exists (store_pcm pcm (new_samples ctx)).
  cbn [WriteBuffer pushed h_response nth_error]. rewrite Hans.
  cbn [fst snd].
  split; [ reflexivity | ].
  split.
  - rewrite length_store_pcm, length_new_samples. unfold sizeof_opus_int16.
    apply Z2Nat.id, Z.div_pos; lia.
  - split; [ reflexivity | ].
    f_equal. apply to_u32_id.
    pose proof (opus_decode_int (decoder self) (frame_of (ReadBuffer ctx))
                  (to_int (payload_size (ReadBuffer ctx))) (frame_size self ctx) 0) as Hint.
    fold (decode_answer self ctx) in Hint. rewrite Hans in Hint. cbn [fst] in Hint.
    unfold is_int, is_u32 in *. lia.
Qed.

Lemma whole_sample_vector_is_written_witness :
  0 <= GetWriteBufferSize (request trailing_packet 8)
  /\ exists written,
       Some [7; 0; 0; 0] = Some written
       /\ Z.of_nat (length written) = GetWriteBufferSize (request trailing_packet 8) / 2
       /\ written
          = store_pcm
              (snd (fst (decode_answer (stub_session one_sample_codec O 1)
                           (request trailing_packet 8))))
              (repeat 0 (Z.to_nat (GetWriteBufferSize (request trailing_packet 8) / 2)))
       /\ nth_error [9; 1] 1
          = Some (fst (fst (decode_answer (stub_session one_sample_codec O 1)
                              (request trailing_packet 8)))).
Proof.
  split; [ simpl; lia | ].
  apply (whole_sample_vector_is_written one_sample_codec Plain
           (stub_session one_sample_codec O 1) clock0 (request trailing_packet 8)
           {| h_response := {| result := RESULT_SUCCESS; pushed := [9; 1];
                               WriteBuffer := Some [7; 0; 0; 0] |};
              h_session := stub_session one_sample_codec 1%nat 1;
              h_events := [CallGetNbSamples [x2a; x2b] 2 48000;
                           CallDecode [x2a; x2b] 1 4 0] |}).
  - simpl; lia.
  - reflexivity.
  - reflexivity.
Defined.

(** ** The probe *)

(** The probe property as the specification words it: the probe gets the
    payload bytes, the declared [payload_size] as their length, and the
    session's sample rate. *)
Definition probe_gets_declared_length : Prop :=
  forall (codec : Codec) (v : Variant) (self : IHardwareOpusDecoderManager) (clk : Clock)
         (ctx : HLERequestContext) (out : HandlerOut) (frame : list byte) (len Fs : Z),
    session_ok self = true ->
    framing_ok (ReadBuffer ctx) = true ->
    decode_call v self clk ctx = Returned out ->
    In (CallGetNbSamples frame len Fs) (h_events out) ->
    frame = frame_of (ReadBuffer ctx)
    /\ len = payload_size (ReadBuffer ctx)
    /\ Fs = sample_rate self.

(** C7, as stated, fails: [trailing_packet] declares one payload byte and
    carries two bytes behind the header; the probe is called with length 2,
    [input.size() - sizeof(OpusHeader)], not with the declared 1. *)
Lemma probe_gets_declared_length_fails : ~ probe_gets_declared_length.
Proof.
  intros claim.
  destruct (claim one_sample_codec Plain (stub_session one_sample_codec O 1) clock0
              (request trailing_packet 8) _ [x2a; x2b] 2 48000
              eq_refl eq_refl eq_refl ltac:(left; reflexivity))
    as (_ & Hlen & _).
  vm_compute in Hlen. discriminate Hlen.
Qed.

(** C7, amended — for a packet that passes the framing checks (shorter
    than 2 GiB, on a configured session) the probe is called exactly once,
    with the bytes behind the header, the number of input bytes behind the
    header ([input.length - 8], which is at least the declared
    [payload_size]), and the session's sample rate. *)
Theorem probe_gets_remaining_input_length (codec : Codec) (v : Variant)
    (self : IHardwareOpusDecoderManager) (clk : Clock) (ctx : HLERequestContext) :
  session_ok self = true ->
  framing_ok (ReadBuffer ctx) = true ->
  input_length (ReadBuffer ctx) < 2 ^ 31 ->
  exists out,
    decode_call v self clk ctx = Returned out
    /\ probe_calls (h_events out)
       = [CallGetNbSamples (frame_of (ReadBuffer ctx))
            (input_length (ReadBuffer ctx) - sizeof_OpusHeader) (sample_rate self)]
    /\ payload_size (ReadBuffer ctx) <= input_length (ReadBuffer ctx) - sizeof_OpusHeader.
Proof.
  intros Hok Hf Hlen.
  pose proof (session_ok_channels self Hok) as Hch.
  pose proof (session_ok_rate self Hok) as Hrate.
  pose proof (proj1 (framing_ok_iff _) Hf) as [Hhdr Hpay].
  assert (Hprobe : probe_event self (ReadBuffer ctx)
                   = CallGetNbSamples (frame_of (ReadBuffer ctx))
                       (input_length (ReadBuffer ctx) - sizeof_OpusHeader)
                       (sample_rate self)).
  { unfold probe_event. rewrite Hrate. f_equal.
    unfold sizeof_OpusHeader in *.
    rewrite to_size_t_id by (unfold is_size_t; lia).
    apply to_int_id. unfold is_int. lia. }
  destruct (decode_call_path v self clk ctx)
    as [ Hs | ? Ho | ? ? | ? ? Hz | ? ? ? ? ? ? ? ? | ? ? ? ? ? ? ? ? ].
  - exfalso. apply (framing_ok_not_short _ Hf Hs).
  - exfalso. apply (framing_ok_not_overrun _ Hf Ho).
  - eexists. split; [ reflexivity | ]. cbn [h_events]. rewrite Hprobe.
    split; [ reflexivity | lia ].
  - exfalso. destruct Hch; lia.
  - eexists. split; [ reflexivity | ]. cbn [h_events]. rewrite Hprobe.
    split; [ reflexivity | lia ].
  - eexists. split; [ reflexivity | ]. cbn [h_events]. rewrite Hprobe.
    split; [ reflexivity | lia ].
Qed.

Lemma probe_gets_remaining_input_length_witness :
  session_ok (stub_session one_sample_codec O 1) = true
  /\ framing_ok (ReadBuffer (request trailing_packet 8)) = true
  /\ input_length (ReadBuffer (request trailing_packet 8)) < 2 ^ 31
  /\ exists out,
       decode_call Plain (stub_session one_sample_codec O 1) clock0
         (request trailing_packet 8) = Returned out
       /\ probe_calls (h_events out)
          = [CallGetNbSamples (frame_of (ReadBuffer (request trailing_packet 8)))
               (input_length (ReadBuffer (request trailing_packet 8)) - sizeof_OpusHeader)
               (sample_rate (stub_session one_sample_codec O 1))]
       /\ payload_size (ReadBuffer (request trailing_packet 8))
          <= input_length (ReadBuffer (request trailing_packet 8)) - sizeof_OpusHeader.
Proof.
  split; [ reflexivity | ].
  split; [ reflexivity | ].
  split; [ reflexivity | ].
  apply (probe_gets_remaining_input_length one_sample_codec Plain); reflexivity.
Defined.

(** ** Failed calls and the session *)

(** The failure property as the specification words it: a failed call
    answers the generic failure status and leaves the session (codec state,
    sample rate, channel count) as it was. *)
Definition failed_call_leaves_session_unchanged : Prop :=
  forall (codec : Codec) (v : Variant) (self : IHardwareOpusDecoderManager) (clk : Clock)
         (ctx : HLERequestContext) (out : HandlerOut),
    decode_call v self clk ctx = Returned out ->
    succeeded out = false ->
    result (h_response out) = ResultCode_minus_1 /\ h_session out = self.

(** The first [opus_decode] call is refused with status -1, later ones
    decode one sample; the decoder state counts the calls. *)
Definition refuse_first_codec : Codec :=
  stub_codec 1 (fun n => match n with O => (-1, []) | S _ => (1, [7]) end).

Example refused_call_changes_decoder :
  decode_call Plain (stub_session refuse_first_codec O 1) clock0 (request trailing_packet 8)
  = Returned
      {| h_response := failure_response;
         h_session := stub_session refuse_first_codec 1%nat 1;
         h_events := [CallGetNbSamples [x2a; x2b] 2 48000;
                      CallDecode [x2a; x2b] 1 4 0;
                      LogError (IncorrectSampleCount (-1) 4 1);
                      LogError FailedToDecode] |}.
Proof. reflexivity. Qed.

(** The same request again, on the session the failed call left, succeeds;
    on the original session it fails. *)
Example same_request_after_refused_call :
  succeeded_outcome
    (decode_call Plain (stub_session refuse_first_codec 1%nat 1) clock0
       (request trailing_packet 8)) = true
  /\ succeeded_outcome
       (decode_call Plain (stub_session refuse_first_codec O 1) clock0
          (request trailing_packet 8)) = false.
Proof. split; reflexivity. Qed.

(** C9, as stated, fails: [opus_decode] runs on the session's decoder
    before it reports a codec error, and what it did to the decoder stays.
    With [refuse_first_codec] the failed call leaves decoder state 1 where
    it was 0. *)
Lemma failed_call_leaves_session_unchanged_fails : ~ failed_call_leaves_session_unchanged.
Proof.
  intros claim.
  destruct (claim refuse_first_codec Plain (stub_session refuse_first_codec O 1) clock0
              (request trailing_packet 8) _ eq_refl eq_refl) as [_ Hsame].
  apply (f_equal decoder) in Hsame. vm_compute in Hsame. discriminate Hsame.
Qed.

(** C9, amended — a failed call answers the single failure status with
    nothing pushed and nothing written, and keeps the session's sample rate
    and channel count.  After a framing or capacity error ([opus_decode]
    was not called) the whole session is unchanged, so later calls run as
    if the failed one had not happened; after a codec error the decoder is
    in the state [opus_decode] left it in. *)
Theorem failed_call_keeps_configuration (codec : Codec) (v : Variant)
    (self : IHardwareOpusDecoderManager) (clk : Clock) (ctx : HLERequestContext)
    (out : HandlerOut) :
  decode_call v self clk ctx = Returned out ->
  succeeded out = false ->
  h_response out = failure_response
  /\ sample_rate (h_session out) = sample_rate self
  /\ channel_count (h_session out) = channel_count self
  /\ (decode_calls (h_events out) = [] ->
      h_session out = self
      /\ forall v' clk' ctx',
           decode_call v' (h_session out) clk' ctx' = decode_call v' self clk' ctx')
  /\ (decode_calls (h_events out) <> [] ->
      logged_kinds (h_events out) = [CodecError]
      /\ decoder (h_session out) = snd (decode_answer self ctx)).
Proof.
  intros Hcall Hfail.
  pose proof (decode_call_path v self clk ctx) as P. rewrite Hcall in P.
  inversion P as [ | | | | n pcm st Hf Hfit Hch Hans Hn Hout
                   | n pcm st Hf Hfit Hch Hans Hn Hout ]; subst;
    try discriminate Hfail;
    cbn [h_response h_session h_events];
    try rewrite with_decoder_self;
    (split; [ reflexivity | ]); (split; [ reflexivity | ]); (split; [ reflexivity | ]).
  1-3: split; [ intros _; split; [ reflexivity | reflexivity ]
              | intros Hne; exfalso; apply Hne; reflexivity ].
  split.
  - intros Hnil. discriminate Hnil.
  - intros _. rewrite Hans. split; reflexivity.
Qed.

Lemma failed_call_keeps_configuration_witness :
  decode_call Plain (stub_session refuse_first_codec O 1) clock0 (request trailing_packet 8)
  = Returned
      {| h_response := failure_response;
         h_session := stub_session refuse_first_codec 1%nat 1;
         h_events := [CallGetNbSamples [x2a; x2b] 2 48000;
                      CallDecode [x2a; x2b] 1 4 0;
                      LogError (IncorrectSampleCount (-1) 4 1);
                      LogError FailedToDecode] |}
  /\ sample_rate (stub_session refuse_first_codec 1%nat 1)
     = sample_rate (stub_session refuse_first_codec O 1)
  /\ channel_count (stub_session refuse_first_codec 1%nat 1)
     = channel_count (stub_session refuse_first_codec O 1)
  /\ decoder (stub_session refuse_first_codec 1%nat 1)
     = snd (decode_answer (stub_session refuse_first_codec O 1) (request trailing_packet 8)).
Proof.
  split; [ reflexivity | ].
  destruct (failed_call_keeps_configuration refuse_first_codec Plain
              (stub_session refuse_first_codec O 1) clock0 (request trailing_packet 8)
              {| h_response := failure_response;
                 h_session := stub_session refuse_first_codec 1%nat 1;
                 h_events := [CallGetNbSamples [x2a; x2b] 2 48000;
                              CallDecode [x2a; x2b] 1 4 0;
                              LogError (IncorrectSampleCount (-1) 4 1);
                              LogError FailedToDecode] |}
              eq_refl eq_refl)
    as (_ & Hrate & Hchannels & _ & Hcodec).
  split; [ exact Hrate | ].
  split; [ exact Hchannels | ].
  apply Hcodec. discriminate.
Defined.

(** ** A negative answer from the probe *)

(** The probe answers -4, the status libopus gives an invalid packet. *)
Definition invalid_packet_codec : Codec := stub_codec (-4) (fun _ => (1, [7])).

(** The probe answers [INT_MIN]. *)
Definition int_min_probe_codec : Codec := stub_codec INT_MIN (fun _ => (1, [7])).

(** The product for any probe answer [n] of type [int], capacity below
    4 GiB: [decoded_sample_count * channel_count] is taken modulo [2^32]
    with a negative [n] read as [2^32 + n].  A negative [n] fails at the
    capacity check on one channel always and on two channels when
    [n >= -2^30]; [opus_decode] is called only when [n] is non-negative
    and its output fits, or on two channels with [n < -2^30]. *)
Lemma negative_probe_wraparound_general (codec : Codec) (v : Variant)
    (self : IHardwareOpusDecoderManager) (clk : Clock) (ctx : HLERequestContext) :
  session_ok self = true ->
  0 <= GetWriteBufferSize ctx < 2 ^ 32 ->
  framing_ok (ReadBuffer ctx) = true ->
  (expected_sample_count self (ReadBuffer ctx) < 0 ->
   decoded_sz (expected_sample_count self (ReadBuffer ctx)) (channel_count self)
   = to_u32 ((2 ^ 32 + expected_sample_count self (ReadBuffer ctx)) * channel_count self) * 2)
  /\ (expected_sample_count self (ReadBuffer ctx) < 0 ->
      channel_count self = 1 \/ - 2 ^ 30 <= expected_sample_count self (ReadBuffer ctx) ->
      exists out,
        decode_call v self clk ctx = Returned out
        /\ logged_kinds (h_events out) = [CapacityError]
        /\ decode_calls (h_events out) = [])
  /\ (forall out,
        decode_call v self clk ctx = Returned out ->
        decode_calls (h_events out) <> [] ->
        (0 <= expected_sample_count self (ReadBuffer ctx)
         /\ expected_sample_count self (ReadBuffer ctx) * channel_count self * 2
            <= GetWriteBufferSize ctx)
        \/ (channel_count self = 2
            /\ expected_sample_count self (ReadBuffer ctx) < - 2 ^ 30)).
Proof.
  intros Hok Hcap Hf.
  pose proof (session_ok_channels self Hok) as Hch.
  pose proof (opus_packet_get_nb_samples_int (frame_of (ReadBuffer ctx))
                (to_int (to_size_t (input_length (ReadBuffer ctx) - sizeof_OpusHeader)))
                (to_int (sample_rate self))) as Hint.
  fold (expected_sample_count self (ReadBuffer ctx)) in Hint.
  set (n := expected_sample_count self (ReadBuffer ctx)) in *.
  pose proof (raw_output_sz_eq ctx) as Hraw.
  unfold is_size_t in Hraw. specialize (Hraw ltac:(lia)).
  pose proof (Z.mul_div_le (GetWriteBufferSize ctx) 2 ltac:(lia)) as Hle.
  pose proof (Z.mod_pos_bound (GetWriteBufferSize ctx) 2 ltac:(lia)) as Hmod.
  pose proof (Z.div_mod (GetWriteBufferSize ctx) 2 ltac:(lia)) as Hdm.
  assert (Hwrap : n < 0 ->
            decoded_sz n (channel_count self)
            = (2 ^ 32 + n) * 2 /\ channel_count self = 1
            \/ decoded_sz n (channel_count self)
               = (2 ^ 32 + 2 * n) * 2 /\ channel_count self = 2).
  { intros Hneg. destruct Hch as [Hc | Hc]; rewrite Hc.
    - left. split; [ apply decoded_sz_negative_mono; assumption | reflexivity ].
    - right. split; [ apply decoded_sz_negative_stereo; assumption | reflexivity ]. }
  subst n. split; [ | split ].
  - intros Hneg. unfold is_int in Hint.
    destruct (Hwrap Hneg) as [[Hsz Hc] | [Hsz Hc]]; rewrite Hsz, Hc; unfold to_u32.
    + rewrite Z.mul_1_r, Z.mod_small by lia. reflexivity.
    + f_equal. apply Z.mod_unique with (q := 1); lia.
  - intros Hneg Hside. unfold is_int in Hint.
    assert (Hbig : raw_output_sz ctx
                   < decoded_sz (expected_sample_count self (ReadBuffer ctx))
                       (channel_count self))
      by (destruct (Hwrap Hneg) as [[Hsz Hc] | [Hsz Hc]]; rewrite Hsz; lia).
    destruct (decode_call_path v self clk ctx)
      as [ Hs | ? Ho | ? ? | ? ? ? | ? ? ? ? ? ? ? ? | ? ? ? ? ? ? ? ? ];
      try lia.
    + exfalso. apply (framing_ok_not_short _ Hf Hs).
    + exfalso. apply (framing_ok_not_overrun _ Hf Ho).
    + eexists. split; [ reflexivity | ]. cbn. auto.
  - intros out Hcall Hdec. unfold is_int in Hint.
    assert (Hfit : decoded_sz (expected_sample_count self (ReadBuffer ctx))
                     (channel_count self) <= raw_output_sz ctx).
    { pose proof (decode_call_path v self clk ctx) as P. rewrite Hcall in P.
      inversion P; subst; try assumption;
        exfalso; apply Hdec; reflexivity. }
    destruct (Z.lt_ge_cases (expected_sample_count self (ReadBuffer ctx)) 0)
      as [Hneg | Hpos].
    + right. destruct (Hwrap Hneg) as [[Hsz Hc] | [Hsz Hc]]; rewrite Hsz in Hfit; lia.
    + left. split; [ exact Hpos | ].
      rewrite (decoded_sz_exact _ _ Hint Hpos Hch) in Hfit. lia.
Qed.

(** Below the bound: on two channels [INT_MIN] becomes the unsigned
    [2^31], whose double is 0 modulo [2^32]; no status code of the codec
    is that small. *)
Example int_min_probe_product :
  expected_sample_count (stub_session int_min_probe_codec O 2) trailing_packet = -2147483648
  /\ decoded_sz (-2147483648) 2 = 0.
Proof. split; reflexivity. Qed.

Example int_min_probe_run :
  decode_call Plain (stub_session int_min_probe_codec O 2) clock0 (request trailing_packet 8)
  = Returned
      {| h_response := {| result := RESULT_SUCCESS; pushed := [9; 1];
                          WriteBuffer := Some [7; 0; 0; 0] |};
         h_session := stub_session int_min_probe_codec 1%nat 2;
         h_events := [CallGetNbSamples [x2a; x2b] 2 48000;
                      CallDecode [x2a; x2b] 1 2 0] |}.
Proof. reflexivity. Qed.

(** C10 — when the probe answers a negative status code [n] (any
    [n >= -2^30], which covers every status the codec returns), the product
    [decoded_sample_count * channel_count * sizeof(u16)] is evaluated in
    unsigned arithmetic, [n] being read as [2^32 + n] modulo [2^32]; the
    wrapped product exceeds every output capacity below 4 GiB, so the call
    fails at the capacity check and [opus_decode] is not called.
    Consequently [opus_decode] is called only when the probe answered a
    non-negative count whose output fits the caller's buffer. *)
Theorem negative_status_fails_capacity_check (codec : Codec) (v : Variant)
    (self : IHardwareOpusDecoderManager) (clk : Clock) (ctx : HLERequestContext) :
  session_ok self = true ->
  0 <= GetWriteBufferSize ctx < 2 ^ 32 ->
  framing_ok (ReadBuffer ctx) = true ->
  - 2 ^ 30 <= expected_sample_count self (ReadBuffer ctx) ->
  (expected_sample_count self (ReadBuffer ctx) < 0 ->
   decoded_sz (expected_sample_count self (ReadBuffer ctx)) (channel_count self)
   = to_u32 ((2 ^ 32 + expected_sample_count self (ReadBuffer ctx)) * channel_count self) * 2
   /\ GetWriteBufferSize ctx
      < decoded_sz (expected_sample_count self (ReadBuffer ctx)) (channel_count self)
   /\ exists out,
        decode_call v self clk ctx = Returned out
        /\ result (h_response out) = ResultCode_minus_1
        /\ logged_kinds (h_events out) = [CapacityError]
        /\ decode_calls (h_events out) = [])
  /\ (forall out,
        decode_call v self clk ctx = Returned out ->
        decode_calls (h_events out) <> [] ->
        0 <= expected_sample_count self (ReadBuffer ctx)
        /\ expected_sample_count self (ReadBuffer ctx) * channel_count self * 2
           <= GetWriteBufferSize ctx).
Proof.
  intros Hok Hcap Hf Hbound.
  destruct (negative_probe_wraparound_general codec v self clk ctx Hok Hcap Hf)
    as (Hproduct & Hreject & Honly).
  pose proof (session_ok_channels self Hok) as Hch.
  pose proof (opus_packet_get_nb_samples_int (frame_of (ReadBuffer ctx))
                (to_int (to_size_t (input_length (ReadBuffer ctx) - sizeof_OpusHeader)))
                (to_int (sample_rate self))) as Hint.
  fold (expected_sample_count self (ReadBuffer ctx)) in Hint.
  split.
  - intros Hneg. split; [ exact (Hproduct Hneg) | ]. split.
    + destruct Hch as [Hc | Hc]; rewrite Hc.
      * rewrite (decoded_sz_negative_mono _ Hint Hneg). lia.
      * rewrite (decoded_sz_negative_stereo _ Hint Hneg). lia.
    + destruct (Hreject Hneg (or_intror Hbound)) as (out & Hcall & Hkind & Hnone).
      exists out. split; [ exact Hcall | ]. split; [ | auto ].
      pose proof (decode_call_path v self clk ctx) as P. rewrite Hcall in P.
      inversion P; subst; try reflexivity; cbn in Hkind; discriminate Hkind.
  - intros out Hcall Hdec.
    destruct (Honly out Hcall Hdec) as [Hfits | [_ Hsmall]]; [ exact Hfits | lia ].
Qed.

Lemma negative_status_fails_capacity_check_witness :
  session_ok (stub_session invalid_packet_codec O 2) = true
  /\ 0 <= GetWriteBufferSize (request trailing_packet 8) < 2 ^ 32
  /\ framing_ok (ReadBuffer (request trailing_packet 8)) = true
  /\ - 2 ^ 30 <= expected_sample_count (stub_session invalid_packet_codec O 2)
                   (ReadBuffer (request trailing_packet 8))
  /\ expected_sample_count (stub_session invalid_packet_codec O 2)
       (ReadBuffer (request trailing_packet 8)) < 0
  /\ decoded_sz
       (expected_sample_count (stub_session invalid_packet_codec O 2)
          (ReadBuffer (request trailing_packet 8)))
       (channel_count (stub_session invalid_packet_codec O 2))
     = 8589934576
  /\ exists out,
       decode_call Plain (stub_session invalid_packet_codec O 2) clock0
         (request trailing_packet 8) = Returned out
       /\ result (h_response out) = ResultCode_minus_1
       /\ logged_kinds (h_events out) = [CapacityError]
       /\ decode_calls (h_events out) = [].
Proof.
  split; [ reflexivity | ].
  split; [ simpl; lia | ].
  split; [ reflexivity | ].
  split; [ vm_compute; discriminate | ].
  split; [ reflexivity | ].
  destruct (negative_status_fails_capacity_check invalid_packet_codec Plain
              (stub_session invalid_packet_codec O 2) clock0 (request trailing_packet 8)
              eq_refl ltac:(simpl; lia) eq_refl ltac:(vm_compute; discriminate))
    as (Hneg & _).
  destruct (Hneg eq_refl) as (Hproduct & _ & Hfail).
  split.
  - rewrite Hproduct. reflexivity.
  - exact Hfail.
Defined.

(** * Further properties of the service *)

(** ** The factory: sizes, assertions, initialisation *)

(** X1 — for a whitelisted sample rate and channel count
    [GetWorkBufferSize] answers success with one word, the codec's decoder
    size for that channel count cut to 32 bits; the sample rate has no
    influence on the answer. *)
Theorem work_buffer_size_ignores_sample_rate (codec : Codec)
    (sample_rate other_rate channel_count : Z) :
  valid_sample_rate sample_rate = true ->
  valid_sample_rate other_rate = true ->
  valid_channel_count channel_count = true ->
  GetWorkBufferSize sample_rate channel_count
  = Returned {| result := RESULT_SUCCESS;
                pushed := [to_u32 (to_size_t (opus_decoder_get_size (to_int channel_count)))];
                WriteBuffer := None |}
  /\ GetWorkBufferSize other_rate channel_count
     = GetWorkBufferSize sample_rate channel_count.
Proof.
  intros Hsr Hother Hch. unfold GetWorkBufferSize.
  rewrite (WorkerBufferSize_valid channel_count Hch), Hsr, Hother, Hch.
  split; reflexivity.
Qed.

Lemma work_buffer_size_ignores_sample_rate_witness :
  valid_sample_rate 8000 = true
  /\ valid_sample_rate 48000 = true
  /\ valid_channel_count 2 = true
  /\ @GetWorkBufferSize one_sample_codec 8000 2
     = Returned {| result := RESULT_SUCCESS; pushed := [64]; WriteBuffer := None |}
  /\ @GetWorkBufferSize one_sample_codec 48000 2 = @GetWorkBufferSize one_sample_codec 8000 2.
Proof.
  split; [ reflexivity | ].
  split; [ reflexivity | ].
  split; [ reflexivity | ].
  apply (work_buffer_size_ignores_sample_rate one_sample_codec 8000 48000 2); reflexivity.
Defined.

(** X2 — both factory entry points check the sample rate first and the
    channel count second: a sample rate outside the whitelist stops them at
    "Invalid sample rate" whatever the other arguments are, and a
    whitelisted rate with a channel count other than 1 or 2 stops them at
    "Invalid channel count"; in neither case is there a response or a
    session. *)
Theorem invalid_configuration_is_contract_error (codec : Codec)
    (sample_rate channel_count buffer_sz : Z) :
  (valid_sample_rate sample_rate = false ->
   GetWorkBufferSize sample_rate channel_count
   = Crashed (AssertionFailed "Invalid sample rate")
   /\ OpenOpusDecoder sample_rate channel_count buffer_sz
      = Crashed (AssertionFailed "Invalid sample rate"))
  /\ (valid_sample_rate sample_rate = true ->
      valid_channel_count channel_count = false ->
      GetWorkBufferSize sample_rate channel_count
      = Crashed (AssertionFailed "Invalid channel count")
      /\ OpenOpusDecoder sample_rate channel_count buffer_sz
         = Crashed (AssertionFailed "Invalid channel count")).
Proof.
  split.
  - intros Hsr. unfold GetWorkBufferSize, OpenOpusDecoder. rewrite Hsr.
    split; reflexivity.
  - intros Hsr Hch. unfold GetWorkBufferSize, OpenOpusDecoder. rewrite Hsr, Hch.
    split; reflexivity.
Qed.

(** X3 — asking for the size and opening with it works: when the codec
    reports a non-negative decoder size, a buffer of the size
    [GetWorkBufferSize] pushed passes the buffer assertion of
    [OpenOpusDecoder], which then returns a response (a session, or the
    failure code when initialisation fails). *)
Theorem reported_size_opens (codec : Codec) (sample_rate channel_count worker_buffer_sz : Z)
    (resp : Response) :
  0 <= opus_decoder_get_size (to_int channel_count) ->
  GetWorkBufferSize sample_rate channel_count = Returned resp ->
  pushed resp = [worker_buffer_sz] ->
  exists out,
    OpenOpusDecoder sample_rate channel_count worker_buffer_sz = Returned out
    /\ (o_result out = RESULT_SUCCESS \/ o_result out = ResultCode_minus_1).
Proof.
  intros Hsize Hget Hpushed.
  unfold GetWorkBufferSize in Hget.
  apply ASSERT_MSG_returned in Hget as [Hsr Hget].
  apply ASSERT_MSG_returned in Hget as [Hch Hget].
  rewrite (WorkerBufferSize_valid channel_count Hch) in Hget.
  inversion Hget; subst resp. cbn [pushed] in Hpushed.
  inversion Hpushed as [Hw]. clear Hpushed Hget.
  pose proof (opus_decoder_get_size_int (to_int channel_count)) as Hint.
  unfold is_int in Hint.
  rewrite to_size_t_id by (unfold is_size_t; lia).
  rewrite to_u32_id by (unfold is_u32; lia).
  unfold OpenOpusDecoder.
  rewrite Hsr, Hch, (WorkerBufferSize_valid channel_count Hch).
  rewrite to_size_t_id by (unfold is_size_t; lia).
  unfold ASSERT_MSG.
  destruct (Z.geb_spec (opus_decoder_get_size (to_int channel_count))
              (opus_decoder_get_size (to_int channel_count))) as [_ | Hlt]; [ | lia ].
  destruct (opus_decoder_init (to_int sample_rate) (to_int channel_count)) as [err st].
  destruct (negb (err =? 0)); eexists; (split; [ reflexivity | ]); cbn; auto.
Qed.

Lemma reported_size_opens_witness :
  0 <= @opus_decoder_get_size one_sample_codec (to_int 1)
  /\ @GetWorkBufferSize one_sample_codec 16000 1
     = Returned {| result := RESULT_SUCCESS; pushed := [64]; WriteBuffer := None |}
  /\ exists out,
       @OpenOpusDecoder one_sample_codec 16000 1 64 = Returned out
       /\ (o_result out = RESULT_SUCCESS \/ o_result out = ResultCode_minus_1).
Proof.
  split; [ vm_compute; discriminate | ].
  split; [ reflexivity | ].
  apply (reported_size_opens one_sample_codec 16000 1 64
           {| result := RESULT_SUCCESS; pushed := [64]; WriteBuffer := None |}).
  - vm_compute; discriminate.
  - reflexivity.
  - reflexivity.
Defined.

(** X4 — with valid arguments and a large enough buffer,
    [OpenOpusDecoder] initialises the codec once with the requested rate
    and channel count; a zero status yields success and a session holding
    the initialised decoder and exactly the requested configuration; any
    other status yields the failure code, no session, and a log line
    carrying the status. *)
Theorem open_follows_init_status (codec : Codec) (sample_rate channel_count buffer_sz : Z) :
  valid_sample_rate sample_rate = true ->
  valid_channel_count channel_count = true ->
  to_size_t (opus_decoder_get_size (to_int channel_count)) <= buffer_sz ->
  let err := fst (opus_decoder_init sample_rate channel_count) in
  let st := snd (opus_decoder_init sample_rate channel_count) in
  (err = 0 ->
   OpenOpusDecoder sample_rate channel_count buffer_sz
   = Returned {| o_result := RESULT_SUCCESS;
                 o_session := Some {| decoder := st; sample_rate := sample_rate;
                                      channel_count := channel_count |};
                 o_events := [CallDecoderInit sample_rate channel_count] |})
  /\ (err <> 0 ->
      OpenOpusDecoder sample_rate channel_count buffer_sz
      = Returned {| o_result := ResultCode_minus_1;
                    o_session := None;
                    o_events := [CallDecoderInit sample_rate channel_count;
                                 LogError (FailedToInit err)] |}).
Proof.
  intros Hsr Hch Hbuf err st. subst err st.
  pose proof (valid_sample_rate_is_int _ Hsr) as Hsri.
  assert (Hchi : is_int channel_count)
    by (destruct (valid_channel_count_cases _ Hch); subst; unfold is_int; lia).
  unfold OpenOpusDecoder.
  rewrite Hsr, Hch, (WorkerBufferSize_valid channel_count Hch).
  rewrite (to_int_id _ Hsri), (to_int_id _ Hchi) in *.
  unfold ASSERT_MSG.
  destruct (Z.geb_spec buffer_sz (to_size_t (opus_decoder_get_size channel_count)))
    as [_ | Hlt]; [ | lia ].
  destruct (opus_decoder_init sample_rate channel_count) as [err st]. cbn [fst snd].
  split; intros Herr.
  - subst err. reflexivity.
  - apply Z.eqb_neq in Herr. rewrite Herr. reflexivity.
Qed.

Lemma open_follows_init_status_witness :
  valid_sample_rate 48000 = true
  /\ valid_channel_count 1 = true
  /\ to_size_t (@opus_decoder_get_size one_sample_codec (to_int 1)) <= 100
  /\ @OpenOpusDecoder one_sample_codec 48000 1 100
     = Returned {| o_result := RESULT_SUCCESS;
                   o_session := Some (stub_session one_sample_codec O 1);
                   o_events := [CallDecoderInit 48000 1] |}.
Proof.
  split; [ reflexivity | ].
  split; [ reflexivity | ].
  split; [ vm_compute; discriminate | ].
  apply (open_follows_init_status one_sample_codec 48000 1 100).
  - reflexivity.
  - reflexivity.
  - vm_compute; discriminate.
  - reflexivity.
Defined.

(** ** A session over its life *)

(** One decode request takes the session from [self] to [self']. *)
Inductive session_step {codec : Codec} (self self' : IHardwareOpusDecoderManager) : Prop :=
| step_call (v : Variant) (clk : Clock) (ctx : HLERequestContext) (out : HandlerOut) :
    decode_call v self clk ctx = Returned out ->
    h_session out = self' ->
    session_step self self'.

(** The sessions [s0] can become through any number of decode requests. *)
Inductive reachable {codec : Codec} (s0 : IHardwareOpusDecoderManager)
  : IHardwareOpusDecoderManager -> Prop :=
| reach_refl : reachable s0 s0
| reach_step (s s' : IHardwareOpusDecoderManager) :
    reachable s0 s -> session_step s s' -> reachable s0 s'.

Lemma decode_call_keeps_configuration (codec : Codec) (v : Variant)
    (self : IHardwareOpusDecoderManager) (clk : Clock) (ctx : HLERequestContext)
    (out : HandlerOut) :
  decode_call v self clk ctx = Returned out ->
  sample_rate (h_session out) = sample_rate self
  /\ channel_count (h_session out) = channel_count self.
Proof.
  intros Hcall. pose proof (decode_call_path v self clk ctx) as P.
  rewrite Hcall in P. inversion P; subst; cbn; auto.
Qed.

(** X5 — a session returned by [OpenOpusDecoder] keeps the sample rate and
    channel count it was opened with through any sequence of decode
    requests, successful or not; so it stays well-configured, and every
    further request on it returns a response (the division by
    [channel_count] cannot fault). *)
Theorem opened_session_stays_usable (codec : Codec) (sample_rate' channel_count' buffer_sz : Z)
    (opened : OpenOut) (s0 s : IHardwareOpusDecoderManager) :
  OpenOpusDecoder sample_rate' channel_count' buffer_sz = Returned opened ->
  o_session opened = Some s0 ->
  reachable s0 s ->
  sample_rate s = sample_rate'
  /\ channel_count s = channel_count'
  /\ session_ok s = true
  /\ forall v clk ctx, exists out, decode_call v s clk ctx = Returned out.
Proof.
  intros Hopen Hs0 Hreach.
  destruct (OpenOpusDecoder_returned _ _ _ _ Hopen) as (Hsr & Hch & _ & Hcfg).
  destruct (Hcfg s0 Hs0) as [Hr0 Hc0].
  assert (Hkeep : sample_rate s = sample_rate' /\ channel_count s = channel_count').
  { induction Hreach as [ | s s' _ IH Hstep ].
    - auto.
    - destruct Hstep as [v clk ctx out Hcall Hout].
      destruct (decode_call_keeps_configuration codec v s clk ctx out Hcall) as [Hr Hc].
      rewrite <- Hout, Hr, Hc. exact IH. }
  destruct Hkeep as [Hr Hc].
  split; [ exact Hr | ]. split; [ exact Hc | ].
  split.
  - unfold session_ok. rewrite Hr, Hc, Hsr, Hch. reflexivity.
  - intros v clk ctx. apply decode_call_returns.
    rewrite Hc. destruct (valid_channel_count_cases _ Hch); lia.
Qed.

Lemma opened_session_stays_usable_witness :
  @OpenOpusDecoder refuse_first_codec 48000 2 64
  = Returned {| o_result := RESULT_SUCCESS;
                o_session := Some (stub_session refuse_first_codec O 2);
                o_events := [CallDecoderInit 48000 2] |}
  /\ reachable (stub_session refuse_first_codec O 2) (stub_session refuse_first_codec 2%nat 2)
  /\ sample_rate (stub_session refuse_first_codec 2%nat 2) = 48000
  /\ channel_count (stub_session refuse_first_codec 2%nat 2) = 2
  /\ session_ok (stub_session refuse_first_codec 2%nat 2) = true
  /\ forall v clk ctx,
       exists out, decode_call v (stub_session refuse_first_codec 2%nat 2) clk ctx
                   = Returned out.
Proof.
  assert (Hreach : reachable (stub_session refuse_first_codec O 2)
                     (stub_session refuse_first_codec 2%nat 2)).
  { apply reach_step with (s := stub_session refuse_first_codec 1%nat 2).
    - apply reach_step with (s := stub_session refuse_first_codec O 2).
      + apply reach_refl.
      + eapply (step_call _ _ Plain clock0 (request trailing_packet 8));
          [ reflexivity | reflexivity ].
    - eapply (step_call _ _ WithPerformance clock0 (request trailing_packet 8));
        [ reflexivity | reflexivity ]. }
  split; [ reflexivity | ].
  split; [ exact Hreach | ].
  apply (opened_session_stays_usable refuse_first_codec 48000 2 64
           {| o_result := RESULT_SUCCESS;
              o_session := Some (stub_session refuse_first_codec O 2);
              o_events := [CallDecoderInit 48000 2] |}
           (stub_session refuse_first_codec O 2)).
  - reflexivity.
  - reflexivity.
  - exact Hreach.
Defined.

(** ** The two decode variants *)

(** X6 — on the same session and request, [DecodeInterleaved] and
    [DecodeInterleavedWithPerformance] end alike whatever the clocks show:
    the same fault, or the same result code, samples written, session
    afterwards and codec calls and log lines; the words pushed are the same
    too, except that a successful [DecodeInterleavedWithPerformance] pushes
    the elapsed milliseconds as a third word. *)
Theorem variants_differ_only_in_elapsed_word (codec : Codec)
    (self : IHardwareOpusDecoderManager) (clk clk' : Clock) (ctx : HLERequestContext) :
  match DecodeInterleaved self clk ctx, DecodeInterleavedWithPerformance self clk' ctx with
  | Returned plain, Returned perf =>
      result (h_response perf) = result (h_response plain)
      /\ WriteBuffer (h_response perf) = WriteBuffer (h_response plain)
      /\ h_session perf = h_session plain
      /\ h_events perf = h_events plain
      /\ pushed (h_response perf)
         = pushed (h_response plain)
           ++ (if succeeded plain then [measured_ms clk'] else [])
  | Crashed why, Crashed why' => why' = why
  | _, _ => False
  end.
Proof.
  pose proof (decode_call_path Plain self clk ctx) as P.
  pose proof (decode_call_path WithPerformance self clk' ctx) as Q.
  change (decode_call Plain self clk ctx) with (DecodeInterleaved self clk ctx) in P.
  change (decode_call WithPerformance self clk' ctx)
    with (DecodeInterleavedWithPerformance self clk' ctx) in Q.
  destruct P as [ Hs | Hh Ho | Hf Hbig | Hf Hfit Hz | n pcm st Hf Hfit Hz Hans Hn
                | n pcm st Hf Hfit Hz Hans Hn ];
    destruct Q as [ Hs' | Hh' Ho' | Hf' Hbig' | Hf' Hfit' Hz' | n' pcm' st' Hf' Hfit' Hz' Hans' Hn'
                  | n' pcm' st' Hf' Hfit' Hz' Hans' Hn' ];
    try (exfalso; apply (framing_ok_not_short _ Hf Hs'));
    try (exfalso; apply (framing_ok_not_short _ Hf' Hs));
    try (exfalso; apply (framing_ok_not_overrun _ Hf Ho'));
    try (exfalso; apply (framing_ok_not_overrun _ Hf' Ho));
    try (exfalso; lia);
    try (rewrite Hans in Hans'; inversion Hans'; subst; try (exfalso; lia));
    cbn; auto 10.
Qed.

(** ** What the codec is handed *)

Lemma length_frame_of (input : list byte) :
  sizeof_OpusHeader <= input_length input ->
  Z.of_nat (length (frame_of input)) = input_length input - sizeof_OpusHeader.
Proof.
  unfold frame_of, input_length, sizeof_OpusHeader. intros H.
  rewrite length_skipn. lia.
Qed.

(** X7 — whenever [opus_decode] is called (capacity below 4 GiB, session
    with one or two channels), its frame-size ceiling is non-negative and
    the ceiling times the channel count is at most the number of samples
    the output vector holds: a codec that honours the ceiling cannot write
    past the vector. *)
Theorem decode_ceiling_fits_output (codec : Codec) (v : Variant)
    (self : IHardwareOpusDecoderManager) (clk : Clock) (ctx : HLERequestContext)
    (out : HandlerOut) (frame : list byte) (len fsz fec : Z) :
  session_ok self = true ->
  0 <= GetWriteBufferSize ctx < 2 ^ 32 ->
  decode_call v self clk ctx = Returned out ->
  In (CallDecode frame len fsz fec) (h_events out) ->
  0 <= fsz
  /\ fsz * channel_count self <= Z.of_nat (length (new_samples ctx))
  /\ Z.of_nat (length (new_samples ctx)) = GetWriteBufferSize ctx / 2.
Proof.
  intros Hok Hcap Hcall Hin.
  pose proof (session_ok_channels self Hok) as Hch.
  assert (Hpos : 0 < channel_count self) by (destruct Hch; lia).
  destruct (decode_ceiling v self clk ctx out frame len fsz fec Hcall Hin) as [Hfsz _].
  fold (frame_size self ctx) in Hfsz. subst fsz.
  split.
  - rewrite (frame_size_eq self ctx Hcap Hpos).
    apply Z.div_pos; [ apply Z.div_pos; lia | lia ].
  - split; [ apply frame_size_fits; assumption | ].
    rewrite length_new_samples. unfold sizeof_opus_int16.
    apply Z2Nat.id, Z.div_pos; lia.
Qed.

Lemma decode_ceiling_fits_output_witness :
  session_ok (stub_session one_sample_codec O 2) = true
  /\ 0 <= GetWriteBufferSize (request trailing_packet 11) < 2 ^ 32
  /\ decode_call Plain (stub_session one_sample_codec O 2) clock0 (request trailing_packet 11)
     = Returned
         {| h_response := {| result := RESULT_SUCCESS; pushed := [9; 1];
                             WriteBuffer := Some [7; 0; 0; 0; 0] |};
            h_session := stub_session one_sample_codec 1%nat 2;
            h_events := [CallGetNbSamples [x2a; x2b] 2 48000;
                         CallDecode [x2a; x2b] 1 2 0] |}
  /\ 0 <= 2
  /\ 2 * channel_count (stub_session one_sample_codec O 2)
     <= Z.of_nat (length (new_samples (request trailing_packet 11)))
  /\ Z.of_nat (length (new_samples (request trailing_packet 11)))
     = GetWriteBufferSize (request trailing_packet 11) / 2.
Proof.
  split; [ reflexivity | ].
  split; [ simpl; lia | ].
  split; [ reflexivity | ].
  apply (decode_ceiling_fits_output one_sample_codec Plain
           (stub_session one_sample_codec O 2) clock0 (request trailing_packet 11)
           {| h_response := {| result := RESULT_SUCCESS; pushed := [9; 1];
                               WriteBuffer := Some [7; 0; 0; 0; 0] |};
              h_session := stub_session one_sample_codec 1%nat 2;
              h_events := [CallGetNbSamples [x2a; x2b] 2 48000;
                           CallDecode [x2a; x2b] 1 2 0] |}
           [x2a; x2b] 1 2 0).
  - reflexivity.
  - simpl; lia.
  - reflexivity.
  - right; left; reflexivity.
Defined.

(** X8 — the lengths handed to the codec stay inside the input (shorter
    than 2 GiB): the probe is told exactly how many bytes follow the
    header, and [opus_decode] is told the declared payload size, which is
    non-negative and at most the number of bytes that follow the header. *)
Theorem codec_lengths_stay_inside_input (codec : Codec) (v : Variant)
    (self : IHardwareOpusDecoderManager) (clk : Clock) (ctx : HLERequestContext)
    (out : HandlerOut) :
  input_length (ReadBuffer ctx) < 2 ^ 31 ->
  decode_call v self clk ctx = Returned out ->
  (forall frame len Fs,
     In (CallGetNbSamples frame len Fs) (h_events out) ->
     frame = frame_of (ReadBuffer ctx) /\ len = Z.of_nat (length frame))
  /\ (forall frame len fsz fec,
        In (CallDecode frame len fsz fec) (h_events out) ->
        frame = frame_of (ReadBuffer ctx)
        /\ len = payload_size (ReadBuffer ctx)
        /\ 0 <= len <= Z.of_nat (length frame)).
Proof.
  intros Hlen Hcall.
  assert (Hframed : (exists e, In e (h_events out) /\ is_codec_call e = true) ->
                    framing_ok (ReadBuffer ctx) = true).
  { intros (e & Hin & He). pose proof (decode_call_path v self clk ctx) as P.
    rewrite Hcall in P.
    inversion P; subst; try assumption; cbn in Hin;
      repeat (destruct Hin as [Hin | Hin]; [ subst e; discriminate He | ]);
      contradiction. }
  split.
  - intros frame len Fs Hin.
    assert (Hf : framing_ok (ReadBuffer ctx) = true)
      by (apply Hframed; eexists; split; [ exact Hin | reflexivity ]).
    apply framing_ok_iff in Hf as [Hhdr _].
    pose proof (length_frame_of _ Hhdr) as Hfl.
    pose proof (decode_call_path v self clk ctx) as P. rewrite Hcall in P.
    assert (Hev : CallGetNbSamples frame len Fs = probe_event self (ReadBuffer ctx)).
    { inversion P; subst; cbn in Hin; unfold decode_event in Hin;
        repeat (destruct Hin as [Hin | Hin]; [ try discriminate Hin; auto | ]);
        contradiction. }
    unfold probe_event in Hev. inversion Hev; subst.
    split; [ reflexivity | ]. rewrite Hfl.
    unfold sizeof_OpusHeader in *.
    rewrite to_size_t_id by (unfold is_size_t; lia).
    apply to_int_id. unfold is_int. lia.
  - intros frame len fsz fec Hin.
    assert (Hf : framing_ok (ReadBuffer ctx) = true)
      by (apply Hframed; eexists; split; [ exact Hin | reflexivity ]).
    apply framing_ok_iff in Hf as [Hhdr Hpay].
    pose proof (length_frame_of _ Hhdr) as Hfl.
    destruct (decode_ceiling v self clk ctx out frame len fsz fec Hcall Hin)
      as (_ & -> & -> & _).
    pose proof (payload_size_range (ReadBuffer ctx)) as Hp.
    unfold is_u32, sizeof_OpusHeader in *.
    rewrite to_int_id by (unfold is_int; lia).
    split; [ reflexivity | ]. split; [ reflexivity | ]. lia.
Qed.

Lemma codec_lengths_stay_inside_input_witness :
  input_length (ReadBuffer (request trailing_packet 8)) < 2 ^ 31
  /\ (forall frame len Fs,
        In (CallGetNbSamples frame len Fs)
           [CallGetNbSamples [x2a; x2b] 2 48000; CallDecode [x2a; x2b] 1 4 0] ->
        frame = frame_of (ReadBuffer (request trailing_packet 8))
        /\ len = Z.of_nat (length frame))
  /\ (forall frame len fsz fec,
        In (CallDecode frame len fsz fec)
           [CallGetNbSamples [x2a; x2b] 2 48000; CallDecode [x2a; x2b] 1 4 0] ->
        frame = frame_of (ReadBuffer (request trailing_packet 8))
        /\ len = payload_size (ReadBuffer (request trailing_packet 8))
        /\ 0 <= len <= Z.of_nat (length frame)).
Proof.
  split; [ reflexivity | ].
  apply (codec_lengths_stay_inside_input one_sample_codec Plain
           (stub_session one_sample_codec O 1) clock0 (request trailing_packet 8)
           {| h_response := {| result := RESULT_SUCCESS; pushed := [9; 1];
                               WriteBuffer := Some [7; 0; 0; 0] |};
              h_session := stub_session one_sample_codec 1%nat 1;
              h_events := [CallGetNbSamples [x2a; x2b] 2 48000;
                           CallDecode [x2a; x2b] 1 4 0] |}).
  - reflexivity.
  - reflexivity.
Defined.

(** ** What a request does not depend on *)

Lemma nth_from_firstn4 (a b : list byte) (i : nat) :
  (i < 4)%nat -> firstn 4 a = firstn 4 b -> nth i a x00 = nth i b x00.
Proof.
  intros Hi Heq.
  assert (H : forall l : list byte, nth i l x00 = nth i (firstn 4 l) x00).
  { intros l. rewrite nth_firstn.
    destruct (Nat.ltb_spec i 4) as [_ | Hge]; [ reflexivity | lia ]. }
  rewrite (H a), (H b), Heq. reflexivity.
Qed.

Lemma payload_size_from_firstn4 (a b : list byte) :
  firstn 4 a = firstn 4 b -> payload_size a = payload_size b.
Proof.
  intros Heq. unfold payload_size, read_OpusHeader. cbn [sz].
  rewrite (nth_from_firstn4 a b 0), (nth_from_firstn4 a b 1),
          (nth_from_firstn4 a b 2), (nth_from_firstn4 a b 3) by (lia || exact Heq).
  reflexivity.
Qed.

(** X9 — the four reserved header bytes are ignored: two inputs of the
    same length that agree on the first four bytes and on everything from
    byte 8 on give the same outcome of a decode request in every respect
    (response, samples, session, codec calls, log). *)
Theorem reserved_header_bytes_are_ignored (codec : Codec) (v : Variant)
    (self : IHardwareOpusDecoderManager) (clk : Clock) (a b : list byte) (capacity : Z) :
  length a = length b ->
  firstn 4 a = firstn 4 b ->
  skipn 8 a = skipn 8 b ->
  decode_call v self clk (request a capacity) = decode_call v self clk (request b capacity).
Proof.
  intros Hlen Hhead Htail.
  pose proof (payload_size_from_firstn4 a b Hhead) as Hsz.
  unfold payload_size in Hsz.
  assert (Hcore : forall pt,
            Decoder_DecodeInterleaved self clk 0 0 a (new_samples (request a capacity)) pt
            = Decoder_DecodeInterleaved self clk 0 0 b (new_samples (request b capacity)) pt).
  { intros pt. unfold Decoder_DecodeInterleaved, new_samples. cbv zeta.
    cbn [GetWriteBufferSize request].
    change (Z.to_nat sizeof_OpusHeader) with 8%nat.
    rewrite Hlen, Hsz, Htail. reflexivity. }
  destruct v; unfold decode_call, DecodeInterleaved, DecodeInterleavedWithPerformance;
    cbn [ReadBuffer request]; rewrite Hcore; reflexivity.
Qed.

Lemma reserved_header_bytes_are_ignored_witness :
  length (packet x01 [x2a; x2b])
  = length [x00; x00; x00; x01; xff; xfe; xfd; xfc; x2a; x2b]
  /\ firstn 4 (packet x01 [x2a; x2b])
     = firstn 4 [x00; x00; x00; x01; xff; xfe; xfd; xfc; x2a; x2b]
  /\ skipn 8 (packet x01 [x2a; x2b])
     = skipn 8 [x00; x00; x00; x01; xff; xfe; xfd; xfc; x2a; x2b]
  /\ decode_call WithPerformance (stub_session one_sample_codec O 1) clock0
       (request (packet x01 [x2a; x2b]) 8)
     = decode_call WithPerformance (stub_session one_sample_codec O 1) clock0
         (request [x00; x00; x00; x01; xff; xfe; xfd; xfc; x2a; x2b] 8).
Proof.
  split; [ reflexivity | ].
  split; [ reflexivity | ].
  split; [ reflexivity | ].
  apply (reserved_header_bytes_are_ignored one_sample_codec WithPerformance);
    reflexivity.
Defined.

(** X10 — only [capacity / 2] matters of the declared output capacity: two
    requests with the same input whose capacities hold the same number of
    whole samples end alike, so the last byte of an odd capacity is never
    used (neither for the capacity check nor for the ceiling nor for the
    samples written). *)
Theorem odd_capacity_byte_is_unused (codec : Codec) (v : Variant)
    (self : IHardwareOpusDecoderManager) (clk : Clock) (input : list byte)
    (capacity capacity' : Z) :
  capacity / 2 = capacity' / 2 ->
  decode_call v self clk (request input capacity)
  = decode_call v self clk (request input capacity').
Proof.
  intros Hhalf.
  assert (Hs : new_samples (request input capacity) = new_samples (request input capacity')).
  { unfold new_samples, sizeof_opus_int16. cbn [GetWriteBufferSize request].
    rewrite Hhalf. reflexivity. }
  destruct v; unfold decode_call, DecodeInterleaved, DecodeInterleavedWithPerformance;
    cbn [ReadBuffer request]; rewrite Hs; reflexivity.
Qed.

Lemma odd_capacity_byte_is_unused_witness :
  9 / 2 = 8 / 2
  /\ decode_call Plain (stub_session one_sample_codec O 1) clock0 (request trailing_packet 9)
     = decode_call Plain (stub_session one_sample_codec O 1) clock0 (request trailing_packet 8).
Proof.
  split; [ reflexivity | ].
  apply (odd_capacity_byte_is_unused one_sample_codec Plain); reflexivity.
Defined.

(** ** When a request succeeds, and how it fails *)

Lemma decoded_sz_even (n ch : Z) : decoded_sz n ch = to_u32 (to_u32 n * ch) * 2.
Proof.
  unfold decoded_sz, sizeof_u16.
  pose proof (to_u32_range (to_u32 n * ch)) as H. unfold is_u32 in H.
  apply to_size_t_id. unfold is_size_t. lia.
Qed.

(** The check against the vector's byte size is a check against the
    declared capacity: the product is even. *)
Lemma fits_raw_iff_fits_capacity (ctx : HLERequestContext) (n ch : Z) :
  is_size_t (GetWriteBufferSize ctx) ->
  decoded_sz n ch <= raw_output_sz ctx <-> decoded_sz n ch <= GetWriteBufferSize ctx.
Proof.
  intros Hcap. rewrite (raw_output_sz_eq ctx Hcap), decoded_sz_even.
  unfold is_size_t in Hcap.
  pose proof (Z.div_mod (GetWriteBufferSize ctx) 2 ltac:(lia)) as Hdm.
  pose proof (Z.mod_pos_bound (GetWriteBufferSize ctx) 2 ltac:(lia)) as Hm.
  lia.
Qed.

(** X11 — on a well-configured session a decode request succeeds exactly
    when the three checks pass in turn: the framing checks, the capacity
    check (the product, as the code computes it, is at most the declared
    capacity) and a non-negative status from [opus_decode]. *)
Theorem success_exactly_when_checks_pass (codec : Codec) (v : Variant)
    (self : IHardwareOpusDecoderManager) (clk : Clock) (ctx : HLERequestContext) :
  session_ok self = true ->
  is_size_t (GetWriteBufferSize ctx) ->
  (exists out, decode_call v self clk ctx = Returned out /\ succeeded out = true)
  <-> framing_ok (ReadBuffer ctx) = true
      /\ decoded_sz (expected_sample_count self (ReadBuffer ctx)) (channel_count self)
         <= GetWriteBufferSize ctx
      /\ 0 <= fst (fst (decode_answer self ctx)).
Proof.
  intros Hok Hcap.
  pose proof (session_ok_channels self Hok) as Hch.
  pose proof (fits_raw_iff_fits_capacity ctx
                (expected_sample_count self (ReadBuffer ctx)) (channel_count self) Hcap)
    as Hfits.
  split.
  - intros (out & Hcall & Hsucc).
    pose proof (decode_call_path v self clk ctx) as P. rewrite Hcall in P.
    inversion P as [ | | | | | n pcm st Hf Hfit Hz Hans Hn Hout ]; subst;
      try discriminate Hsucc.
    rewrite Hans. cbn [fst]. split; [ exact Hf | ]. split; [ apply Hfits, Hfit | exact Hn ].
  - intros (Hf & Hfit & Hstatus). apply Hfits in Hfit.
    destruct (decode_call_path v self clk ctx)
      as [ Hs | ? Ho | ? Hbig | ? ? Hz | n pcm st ? ? ? Hans Hn | n pcm st ? ? ? Hans Hn ].
    + exfalso. apply (framing_ok_not_short _ Hf Hs).
    + exfalso. apply (framing_ok_not_overrun _ Hf Ho).
    + exfalso. lia.
    + exfalso. destruct Hch; lia.
    + exfalso. rewrite Hans in Hstatus. cbn [fst] in Hstatus. lia.
    + eexists. split; reflexivity.
Qed.

Lemma success_exactly_when_checks_pass_witness :
  session_ok (stub_session five_sample_codec O 2) = true
  /\ is_size_t (GetWriteBufferSize (request trailing_packet 20))
  /\ ((exists out,
         decode_call Plain (stub_session five_sample_codec O 2) clock0
           (request trailing_packet 20) = Returned out
         /\ succeeded out = true)
      <-> framing_ok (ReadBuffer (request trailing_packet 20)) = true
          /\ decoded_sz
               (expected_sample_count (stub_session five_sample_codec O 2)
                  (ReadBuffer (request trailing_packet 20)))
               (channel_count (stub_session five_sample_codec O 2))
             <= GetWriteBufferSize (request trailing_packet 20)
          /\ 0 <= fst (fst (decode_answer (stub_session five_sample_codec O 2)
                              (request trailing_packet 20)))).
Proof.
  split; [ reflexivity | ].
  split; [ unfold is_size_t; simpl; lia | ].
  apply (success_exactly_when_checks_pass five_sample_codec Plain).
  - reflexivity.
  - unfold is_size_t; simpl; lia.
Defined.

(** X12 — when the framing and capacity checks pass and [opus_decode]
    returns a negative status, the request fails as a codec error: the
    failure code, nothing pushed or written, a log line carrying the
    status, the ceiling and the declared payload size, and the session's
    decoder left in the state [opus_decode] produced. *)
Theorem negative_decode_status_is_codec_error (codec : Codec) (v : Variant)
    (self : IHardwareOpusDecoderManager) (clk : Clock) (ctx : HLERequestContext) :
  session_ok self = true ->
  is_size_t (GetWriteBufferSize ctx) ->
  framing_ok (ReadBuffer ctx) = true ->
  decoded_sz (expected_sample_count self (ReadBuffer ctx)) (channel_count self)
  <= GetWriteBufferSize ctx ->
  fst (fst (decode_answer self ctx)) < 0 ->
  exists out,
    decode_call v self clk ctx = Returned out
    /\ h_response out = failure_response
    /\ logged_kinds (h_events out) = [CodecError]
    /\ In (LogError (IncorrectSampleCount (fst (fst (decode_answer self ctx)))
                       (frame_size self ctx) (payload_size (ReadBuffer ctx))))
          (h_events out)
    /\ decoder (h_session out) = snd (decode_answer self ctx).
Proof.
  intros Hok Hcap Hf Hfit Hstatus.
  pose proof (session_ok_channels self Hok) as Hch.
  apply (fits_raw_iff_fits_capacity ctx _ _ Hcap) in Hfit.
  destruct (decode_call_path v self clk ctx)
    as [ Hs | ? Ho | ? Hbig | ? ? Hz | n pcm st ? ? ? Hans Hn | n pcm st ? ? ? Hans Hn ].
  - exfalso. apply (framing_ok_not_short _ Hf Hs).
  - exfalso. apply (framing_ok_not_overrun _ Hf Ho).
  - exfalso. lia.
  - exfalso. destruct Hch; lia.
  - eexists. split; [ reflexivity | ]. rewrite Hans.
    cbn [h_response h_session h_events fst snd decoder with_decoder].
    rewrite (to_u32_id _ (payload_size_range (ReadBuffer ctx))).
    split; [ reflexivity | ]. split; [ reflexivity | ].
    split; [ right; right; left; reflexivity | reflexivity ].
  - exfalso. rewrite Hans in Hstatus. cbn [fst] in Hstatus. lia.
Qed.

Lemma negative_decode_status_is_codec_error_witness :
  session_ok (stub_session refuse_first_codec O 1) = true
  /\ is_size_t (GetWriteBufferSize (request trailing_packet 8))
  /\ framing_ok (ReadBuffer (request trailing_packet 8)) = true
  /\ decoded_sz
       (expected_sample_count (stub_session refuse_first_codec O 1)
          (ReadBuffer (request trailing_packet 8)))
       (channel_count (stub_session refuse_first_codec O 1))
     <= GetWriteBufferSize (request trailing_packet 8)
  /\ fst (fst (decode_answer (stub_session refuse_first_codec O 1)
                 (request trailing_packet 8))) < 0
  /\ exists out,
       decode_call Plain (stub_session refuse_first_codec O 1) clock0
         (request trailing_packet 8) = Returned out
       /\ h_response out = failure_response
       /\ logged_kinds (h_events out) = [CodecError]
       /\ In (LogError (IncorrectSampleCount
                          (fst (fst (decode_answer (stub_session refuse_first_codec O 1)
                                       (request trailing_packet 8))))
                          (frame_size (stub_session refuse_first_codec O 1)
                             (request trailing_packet 8))
                          (payload_size (ReadBuffer (request trailing_packet 8)))))
             (h_events out)
       /\ decoder (h_session out)
          = snd (decode_answer (stub_session refuse_first_codec O 1)
                   (request trailing_packet 8)).
Proof.
  split; [ reflexivity | ].
  split; [ unfold is_size_t; simpl; lia | ].
  split; [ reflexivity | ].
  split; [ vm_compute; discriminate | ].
  split; [ reflexivity | ].
  apply (negative_decode_status_is_codec_error refuse_first_codec Plain).
  - reflexivity.
  - unfold is_size_t; simpl; lia.
  - reflexivity.
  - vm_compute; discriminate.
  - reflexivity.
Defined.

(** X13 — a decode request calls the codec at most twice and in a fixed
    order: nothing, or the probe alone, or the probe and then
    [opus_decode] once.  A successful request made both calls and logged
    no error; a failed one logged exactly one error of the framing,
    capacity or codec kind. *)
Theorem one_probe_then_one_decode (codec : Codec) (v : Variant)
    (self : IHardwareOpusDecoderManager) (clk : Clock) (ctx : HLERequestContext)
    (out : HandlerOut) :
  decode_call v self clk ctx = Returned out ->
  (codec_calls (h_events out) = []
   \/ codec_calls (h_events out) = [probe_event self (ReadBuffer ctx)]
   \/ codec_calls (h_events out)
      = [probe_event self (ReadBuffer ctx); decode_event self ctx])
  /\ (succeeded out = true ->
      h_events out = [probe_event self (ReadBuffer ctx); decode_event self ctx])
  /\ (succeeded out = false ->
      exists kind, logged_kinds (h_events out) = [kind]).
Proof.
  intros Hcall. pose proof (decode_call_path v self clk ctx) as P.
  rewrite Hcall in P.
  inversion P; subst; cbn [h_events h_response];
    (split; [ cbn; auto | ]);
    (split; [ intros Hs; try discriminate Hs; reflexivity | ]);
    intros Hs; try discriminate Hs; eexists; reflexivity.
Qed.

Lemma one_probe_then_one_decode_witness :
  decode_call Plain (stub_session five_sample_codec O 2) clock0 (request trailing_packet 16)
  = Returned
      {| h_response := failure_response;
         h_session := stub_session five_sample_codec O 2;
         h_events := [CallGetNbSamples [x2a; x2b] 2 48000;
                      LogError (DecodedDataDoesNotFit 20 16);
                      LogError FailedToDecode] |}
  /\ codec_calls [CallGetNbSamples [x2a; x2b] 2 48000;
                  LogError (DecodedDataDoesNotFit 20 16);
                  LogError FailedToDecode]
     = [probe_event (stub_session five_sample_codec O 2)
          (ReadBuffer (request trailing_packet 16))]
  /\ exists kind,
       logged_kinds [CallGetNbSamples [x2a; x2b] 2 48000;
                     LogError (DecodedDataDoesNotFit 20 16);
                     LogError FailedToDecode] = [kind].
Proof.
  split; [ reflexivity | ].
  destruct (one_probe_then_one_decode five_sample_codec Plain
              (stub_session five_sample_codec O 2) clock0 (request trailing_packet 16)
              {| h_response := failure_response;
                 h_session := stub_session five_sample_codec O 2;
                 h_events := [CallGetNbSamples [x2a; x2b] 2 48000;
                              LogError (DecodedDataDoesNotFit 20 16);
                              LogError FailedToDecode] |}
              eq_refl)
    as (_ & _ & Hfail).
  split; [ reflexivity | ].
  apply Hfail. reflexivity.
Defined.

(** X14 — on success (input shorter than 4 GiB) the [consumed] word is at
    least the header size and at most the length of the input: the caller
    can always advance by it inside its own buffer. *)
Theorem consumed_stays_inside_input (codec : Codec) (v : Variant)
    (self : IHardwareOpusDecoderManager) (clk : Clock) (ctx : HLERequestContext)
    (out : HandlerOut) :
  input_length (ReadBuffer ctx) < 2 ^ 32 ->
  decode_call v self clk ctx = Returned out ->
  succeeded out = true ->
  exists consumed,
    nth_error (pushed (h_response out)) 0 = Some consumed
    /\ sizeof_OpusHeader <= consumed <= input_length (ReadBuffer ctx).
Proof.
  intros Hlen Hcall Hok.
  assert (Hf : framing_ok (ReadBuffer ctx) = true).
  { pose proof (decode_call_path v self clk ctx) as P. rewrite Hcall in P.
    inversion P; subst; try discriminate Hok. assumption. }
  apply framing_ok_iff in Hf as [Hhdr Hpay].
  pose proof (payload_size_range (ReadBuffer ctx)) as Hp.
  exists (to_u32 (sizeof_OpusHeader + payload_size (ReadBuffer ctx))).
  split; [ exact (consumed_word v self clk ctx out Hcall Hok) | ].
  rewrite to_u32_id by (unfold is_u32, sizeof_OpusHeader in *; lia).
  unfold is_u32, sizeof_OpusHeader in *. lia.
Qed.

Lemma consumed_stays_inside_input_witness :
  input_length (ReadBuffer (request trailing_packet 8)) < 2 ^ 32
  /\ exists consumed,
       nth_error [9; 1] 0 = Some consumed
       /\ sizeof_OpusHeader <= consumed <= input_length (ReadBuffer (request trailing_packet 8)).
Proof.
  split; [ reflexivity | ].
  apply (consumed_stays_inside_input one_sample_codec Plain
           (stub_session one_sample_codec O 1) clock0 (request trailing_packet 8)
           {| h_response := {| result := RESULT_SUCCESS; pushed := [9; 1];
                               WriteBuffer := Some [7; 0; 0; 0] |};
              h_session := stub_session one_sample_codec 1%nat 1;
              h_events := [CallGetNbSamples [x2a; x2b] 2 48000;
                           CallDecode [x2a; x2b] 1 4 0] |});
    reflexivity.
Defined.

(** ** The reference parameters of [Decoder_DecodeInterleaved] *)

(** X15 — when [Decoder_DecodeInterleaved] returns [false] it has not
    assigned [consumed], [sample_count] or the performance time; and unless
    it got as far as calling [opus_decode], the output vector and the
    decoder are as they were.  When it returns [true] the performance time
    is assigned exactly if one was passed. *)
Theorem failure_leaves_reference_parameters (codec : Codec)
    (self : IHardwareOpusDecoderManager) (clk : Clock) (consumed sample_count : Z)
    (input : list byte) (output : list Z) (performance_time : option Z) (r : DecodeOut) :
  Decoder_DecodeInterleaved self clk consumed sample_count input output performance_time
  = Returned r ->
  (d_ok r = false ->
   d_consumed r = consumed
   /\ d_sample_count r = sample_count
   /\ d_performance r = performance_time
   /\ (decode_calls (d_events r) = [] ->
       d_output r = output /\ d_decoder r = decoder self))
  /\ (d_ok r = true ->
      d_performance r
      = match performance_time with
        | Some _ => Some (measured_ms clk)
        | None => None
        end).
Proof.
  unfold Decoder_DecodeInterleaved. cbv zeta. intros Hret.
  destruct (sizeof_OpusHeader >? Z.of_nat (length input));
    [ inversion Hret; subst; cbn; split; [ auto | discriminate ] | ].
  destruct (to_size_t (sizeof_OpusHeader + to_u32 (sz (read_OpusHeader input)))
            >? Z.of_nat (length input));
    [ inversion Hret; subst; cbn; split; [ auto | discriminate ] | ].
  match type of Hret with
  | (if ?c then _ else _) = _ =>
      destruct c; [ inversion Hret; subst; cbn; split; [ auto | discriminate ] | ]
  end.
  destruct (channel_count self =? 0); [ discriminate Hret | ].
  match type of Hret with
  | context [opus_decode ?a ?b ?c ?d ?e] =>
      destruct (opus_decode a b c d e) as [[n pcm] st]
  end.
  destruct (n <? 0); inversion Hret; subst; cbn.
  - split; [ intros _ | discriminate ].
    repeat (split; [ reflexivity | ]). intros Hnil. discriminate Hnil.
  - split; [ discriminate | intros _; reflexivity ].
Qed.

Lemma failure_leaves_reference_parameters_witness :
  Decoder_DecodeInterleaved (stub_session five_sample_codec O 2) clock0 11 22
    trailing_packet [5; 5; 5; 5] (Some 33)
  = Returned
      (@Build_DecodeOut five_sample_codec false 11 22 [5; 5; 5; 5] (Some 33) O
         [CallGetNbSamples [x2a; x2b] 2 48000; LogError (DecodedDataDoesNotFit 20 8)])
  /\ (false = false ->
      11 = 11 /\ 22 = 22 /\ Some 33 = Some 33
      /\ (decode_calls [CallGetNbSamples [x2a; x2b] 2 48000;
                        LogError (DecodedDataDoesNotFit 20 8)] = [] ->
          [5; 5; 5; 5] = [5; 5; 5; 5]
          /\ O = decoder (stub_session five_sample_codec O 2)))
  /\ (false = true ->
      Some 33 = Some (measured_ms clock0)).
Proof.
  split; [ reflexivity | ].
  apply (failure_leaves_reference_parameters five_sample_codec
           (stub_session five_sample_codec O 2) clock0 11 22 trailing_packet
           [5; 5; 5; 5] (Some 33)
           (@Build_DecodeOut five_sample_codec false 11 22 [5; 5; 5; 5] (Some 33) O
              [CallGetNbSamples [x2a; x2b] 2 48000;
               LogError (DecodedDataDoesNotFit 20 8)])).
  reflexivity.
Defined.

(** ** A clock that steps back *)

(** X16 — the elapsed time is a signed tick count stored into an unsigned
    64-bit word: when the clock reads at least one millisecond less after
    [opus_decode] than on entry, a successful
    [DecodeInterleavedWithPerformance] reports [2^64] minus the
    milliseconds gone back, a value of at least [2^63], not a negative or
    zero time. *)
Theorem backward_clock_wraps_elapsed (codec : Codec)
    (self : IHardwareOpusDecoderManager) (clk : Clock) (ctx : HLERequestContext)
    (out : HandlerOut) :
  - 2 ^ 63 <= now_at_decode_return clk - now_at_entry clk <= - ticks_per_ms ->
  DecodeInterleavedWithPerformance self clk ctx = Returned out ->
  succeeded out = true ->
  exists elapsed_ms,
    nth_error (pushed (h_response out)) 2 = Some elapsed_ms
    /\ elapsed_ms = 2 ^ 64 - (now_at_entry clk - now_at_decode_return clk) / ticks_per_ms
    /\ 2 ^ 63 <= elapsed_ms < 2 ^ 64.
Proof.
  intros Hback Hcall Hok.
  pose proof (decode_call_path WithPerformance self clk ctx) as P.
  change (decode_call WithPerformance self clk ctx)
    with (DecodeInterleavedWithPerformance self clk ctx) in P.
  rewrite Hcall in P. inversion P; subst; try discriminate Hok.
  exists (measured_ms clk). cbn [nth_error pushed h_response].
  split; [ reflexivity | ].
  unfold measured_ms, duration_cast_ms, ticks_per_ms in *.
  set (d := now_at_entry clk - now_at_decode_return clk) in *.
  replace (now_at_decode_return clk - now_at_entry clk) with (- d) in * by (subst d; lia).
  rewrite Z.quot_opp_l by lia.
  rewrite Z.quot_div_nonneg by lia.
  assert (Hq : 1 <= d / 1000000 <= d).
  { split; [ apply Z.div_le_lower_bound; lia | apply Z.div_le_upper_bound; lia ]. }
  assert (Hw : to_u64 (- (d / 1000000)) = 2 ^ 64 - d / 1000000).
  { unfold to_u64. symmetry. apply Z.mod_unique with (q := -1); lia. }
  rewrite Hw. lia.
Qed.

Lemma backward_clock_wraps_elapsed_witness :
  - 2 ^ 63
  <= now_at_decode_return
       {| now_at_entry := 2000000; now_at_decode_call := 0; now_at_decode_return := 0 |}
     - now_at_entry
         {| now_at_entry := 2000000; now_at_decode_call := 0; now_at_decode_return := 0 |}
  <= - ticks_per_ms
  /\ exists elapsed_ms,
       nth_error [9; 1; 18446744073709551614] 2 = Some elapsed_ms
       /\ elapsed_ms
          = 2 ^ 64
            - (now_at_entry
                 {| now_at_entry := 2000000; now_at_decode_call := 0;
                    now_at_decode_return := 0 |}
               - now_at_decode_return
                   {| now_at_entry := 2000000; now_at_decode_call := 0;
                      now_at_decode_return := 0 |}) / ticks_per_ms
       /\ 2 ^ 63 <= elapsed_ms < 2 ^ 64.
Proof.
  split; [ unfold ticks_per_ms; simpl; lia | ].
  apply (backward_clock_wraps_elapsed one_sample_codec
           (stub_session one_sample_codec O 1)
           {| now_at_entry := 2000000; now_at_decode_call := 0; now_at_decode_return := 0 |}
           (request trailing_packet 8)
           {| h_response := {| result := RESULT_SUCCESS;
                               pushed := [9; 1; 18446744073709551614];
                               WriteBuffer := Some [7; 0; 0; 0] |};
              h_session := stub_session one_sample_codec 1%nat 1;
              h_events := [CallGetNbSamples [x2a; x2b] 2 48000;
                           CallDecode [x2a; x2b] 1 4 0] |}).
  - unfold ticks_per_ms; simpl; lia.
  - reflexivity.
  - reflexivity.
Defined.
